(** * Vision Workbench: the OpenEXR disk image resource and the georeference

    A shallow embedding of [src/vw/FileIO/DiskImageResourceOpenEXR.cc] and of
    the interface declared in [src/vw/Cartography/GeoReference.h].

    The member functions of [DiskImageResourceOpenEXR] mutate the object,
    call into the OpenEXR library and leave by exceptions.  They are
    embedded in a state-and-exception monad over a machine made of the
    object, the history of the calls into OpenEXR and the memory of the
    caller's destination buffer.  What the two sources use but do not define
    (declarations of other Vision Workbench headers, the OpenEXR library) is
    an interface, [VisionWorkbench] and [OpenEXR]: every theorem holds for
    all of their implementations. *)

From Stdlib Require Import ZArith String Ascii List Lia DecimalString QArith Qabs Field.
From Stdlib Require DecimalZ OrderedTypeEx Sorted.
From stdpp Require Import base option list gmap strings.

Close Scope Q_scope.
Open Scope string_scope.
Open Scope Z_scope.

(** ** Integers, vectors and boxes *)

(** [int32] values are integers; where the source adds or subtracts them the
    result is reduced to 32 bits in two's complement. *)
Definition wrap32 (z : Z) : Z := (z + 2 ^ 31) mod 2 ^ 32 - 2 ^ 31.

(** [Vector2i]: [v.1] is [v.x()] or [v[0]], [v.2] is [v.y()] or [v[1]]. *)
Definition Vector2i : Type := Z * Z.

(** [BBox2i], a box from [min()] (inclusive) to [max()] (exclusive). *)
Record BBox2i := { bbox_min : Vector2i; bbox_max : Vector2i }.

Definition bbox_width (b : BBox2i) : Z := wrap32 ((bbox_max b).1 - (bbox_min b).1).
Definition bbox_height (b : BBox2i) : Z := wrap32 ((bbox_max b).2 - (bbox_min b).2).

(** The two characters the messages of the source escape. *)
Definition nl : string := String (ascii_of_nat 10) EmptyString.
Definition tab : string := String (ascii_of_nat 9) EmptyString.

(** [ostream << int]. *)
Definition show_int (z : Z) : string := NilZero.string_of_int (Z.to_int z).

(** ** Image formats (vw/Image/PixelTypes.h, vw/Image/ImageResource.h) *)

(** The enumerators the translated sources name; every other enumerator of
    the two enumerations is kept by its numeric code. *)
Inductive PixelFormatEnum :=
| VW_PIXEL_SCALAR
| VW_PIXEL_RGB
| VW_PIXEL_RGBA
| VW_PIXEL_other (code : Z).

Inductive ChannelTypeEnum :=
| VW_CHANNEL_FLOAT32
| VW_CHANNEL_other (code : Z).

#[global] Instance PixelFormatEnum_eq_dec : EqDecision PixelFormatEnum.
Proof. solve_decision. Defined.

#[global] Instance ChannelTypeEnum_eq_dec : EqDecision ChannelTypeEnum.
Proof. solve_decision. Defined.

Record ImageFormat := {
  cols : Z;
  rows : Z;
  planes : Z;
  pixel_format : PixelFormatEnum;
  channel_type : ChannelTypeEnum
}.

(** One plane of samples, row by row, each sample as the word that stores
    it. *)
Definition Plane : Type := list Z.

(** [ImageBuffer]: a format and the memory it describes, plane by plane. *)
Record ImageBuffer := { buf_format : ImageFormat; buf_data : list Plane }.

(** ** Exceptions *)

(** The classes of vw/Core/Exception.h that the source throws, with the
    message streamed into them. *)
Inductive VwException :=
| ArgumentErr (msg : string)
| LogicErr (msg : string)
| IOErr (msg : string)
| NoImplErr (msg : string).

(** What can be in flight: an exception of Vision Workbench, or one of the
    OpenEXR library ([Iex::BaseExc] and its subclasses) with its [what()]. *)
Inductive Exception :=
| Vw (e : VwException)
| Iex_BaseExc (what : string).

Inductive Result (A : Type) :=
| Ok (a : A)
| Throw (e : Exception).
Arguments Ok {A} a.
Arguments Throw {A} e.

(** ** The data of the OpenEXR interface *)

Inductive LineOrder := INCREASING_Y | DECREASING_Y | RANDOM_Y.
Inductive LevelMode := ONE_LEVEL | MIPMAP_LEVELS | RIPMAP_LEVELS.

Record TileDescription := { xSize : Z; ySize : Z; mode : LevelMode }.

(** [Imf::Header]: the data window (both corners inclusive), the names of
    the channels in the order in which [channels().begin()] .. [end()]
    enumerates them, the tile description if there is one, the line order. *)
Record Header := {
  dataWindow : BBox2i;
  channels : list string;
  tileDescription : option TileDescription;
  lineOrder : LineOrder
}.

(** [Imf::Header header (width, height)]. *)
Definition Header_new (width height : Z) : Header :=
  {| dataWindow := {| bbox_min := (0, 0); bbox_max := (wrap32 (width - 1), wrap32 (height - 1)) |};
     channels := [];
     tileDescription := None;
     lineOrder := INCREASING_Y |}.

(** [ChannelList::insert]: the list is a [std::map] keyed by name, kept in
    the order of [strcmp]; inserting a name already there replaces its
    channel, and all channels here are [Imf::FLOAT]. *)
Fixpoint ChannelList_insert (name : string) (l : list string) : list string :=
  match l with
  | [] => [name]
  | c :: l' =>
      match String.compare name c with
      | Lt => name :: l
      | Eq => l
      | Gt => c :: ChannelList_insert name l'
      end
  end.

Definition Header_insert_channel (name : string) (h : Header) : Header :=
  {| dataWindow := dataWindow h;
     channels := ChannelList_insert name (channels h);
     tileDescription := tileDescription h;
     lineOrder := lineOrder h |}.

Definition Header_setTileDescription (td : TileDescription) (h : Header) : Header :=
  {| dataWindow := dataWindow h;
     channels := channels h;
     tileDescription := Some td;
     lineOrder := lineOrder h |}.

Definition Header_set_lineOrder (lo : LineOrder) (h : Header) : Header :=
  {| dataWindow := dataWindow h;
     channels := channels h;
     tileDescription := tileDescription h;
     lineOrder := lo |}.

Definition hasTileDescription (h : Header) : bool :=
  bool_decide (is_Some (tileDescription h)).

(** [Imf::FrameBuffer], a [std::map] from channel names to slices.  Every
    slice the source builds addresses one whole plane of its staging image,
    so a slice is the index of that plane. *)
Abbreviation FrameBuffer := (gmap string Z).

(** What [m_input_file_ptr] points to: an [Imf::InputFile] or, when
    [in_tiled], an [Imf::TiledInputFile], opened on [in_filename], with the
    header read from the file. *)
Record InputFile := { in_tiled : bool; in_filename : string; in_header : Header }.

(** What [m_output_file_ptr] points to, likewise. *)
Record OutputFile := { out_tiled : bool; out_filename : string; out_header : Header }.

(** The calls of the source into the library that touch a file or can
    throw.  A [delete] names the class the pointer was cast to. *)
Inductive ImfCall :=
| get_tileDescription (h : Header)
| new_InputFile (filename : string)
| new_TiledInputFile (filename : string)
| delete_InputFile (f : InputFile)
| delete_TiledInputFile (f : InputFile)
| new_TiledOutputFile (filename : string) (h : Header)
| new_OutputFile (filename : string) (h : Header)
| delete_TiledOutputFile (f : OutputFile)
| delete_OutputFile (f : OutputFile)
| in_setFrameBuffer (f : InputFile) (fb : FrameBuffer)
| readTiles (f : InputFile) (dx1 dx2 dy1 dy2 : Z)
| readPixels (f : InputFile) (y1 y2 : Z)
| out_setFrameBuffer (f : OutputFile) (fb : FrameBuffer) (image : list Plane)
| writeTiles (f : OutputFile) (dx1 dx2 dy1 dy2 : Z)
| writePixels (f : OutputFile) (numScanLines : Z).

(** One entry of the history: the call, and the [what()] of the exception it
    raised if it raised one.  The newest entry is first. *)
Record ImfEvent := { ev_call : ImfCall; ev_raised : option string }.

Abbreviation History := (list ImfEvent).

(** The library itself.  Each entry answers one call from the history so
    far and the arguments: [inl what] when the call throws an
    [Iex::BaseExc], [inr] of its result otherwise.  A read yields, for each
    channel name, the samples the library stores through the slice of that
    name. *)
Class OpenEXR := {
  Imf_InputFile : History -> string -> string + Header;
  Imf_TiledInputFile : History -> string -> string + Header;
  Imf_TiledOutputFile : History -> string -> Header -> string + unit;
  Imf_OutputFile : History -> string -> Header -> string + unit;
  Imf_in_setFrameBuffer : History -> InputFile -> FrameBuffer -> string + unit;
  Imf_readTiles : History -> InputFile -> Z -> Z -> Z -> Z -> string + (string -> Plane);
  Imf_readPixels : History -> InputFile -> Z -> Z -> string + (string -> Plane);
  Imf_out_setFrameBuffer : History -> OutputFile -> FrameBuffer -> list Plane -> string + unit;
  Imf_writeTiles : History -> OutputFile -> Z -> Z -> Z -> Z -> string + unit;
  Imf_writePixels : History -> OutputFile -> Z -> string + unit;
  (** [what()] of the exception of [Header::tileDescription()] on a header
      without one *)
  Imf_no_tileDescription : string
}.

(** What the source uses of Vision Workbench and does not define:
    [num_channels] of vw/Image/PixelTypes.h, the constant
    [m_openexr_rows_per_block] of the class declaration, [convert] of
    vw/Image/ImageResource.h, which returns the new memory of its
    destination or throws, the content of a plane that [ImageView] has just
    allocated, and a default argument of the class declaration. *)
Class VisionWorkbench := {
  num_channels : PixelFormatEnum -> VwException + Z;
  m_openexr_rows_per_block : Z;
  convert : ImageBuffer -> ImageBuffer -> VwException + list Plane;
  ImageView_fresh_plane : Z -> Z -> Plane;
  (** the default argument of [set_tiled_write] for [random_tile_order] *)
  default_random_tile_order : bool
}.

(** ** The object *)

Record DiskImageResourceOpenEXR := {
  m_filename : string;
  m_format : ImageFormat;
  m_block_size : Vector2i;
  m_labels : list string;
  m_input_file_ptr : option InputFile;
  m_output_file_ptr : option OutputFile;
  m_tiled : bool
}.

Definition set_m_filename (v : string) (r : DiskImageResourceOpenEXR) :=
  {| m_filename := v; m_format := m_format r; m_block_size := m_block_size r;
     m_labels := m_labels r; m_input_file_ptr := m_input_file_ptr r;
     m_output_file_ptr := m_output_file_ptr r; m_tiled := m_tiled r |}.

Definition set_m_format (v : ImageFormat) (r : DiskImageResourceOpenEXR) :=
  {| m_filename := m_filename r; m_format := v; m_block_size := m_block_size r;
     m_labels := m_labels r; m_input_file_ptr := m_input_file_ptr r;
     m_output_file_ptr := m_output_file_ptr r; m_tiled := m_tiled r |}.

Definition set_m_block_size (v : Vector2i) (r : DiskImageResourceOpenEXR) :=
  {| m_filename := m_filename r; m_format := m_format r; m_block_size := v;
     m_labels := m_labels r; m_input_file_ptr := m_input_file_ptr r;
     m_output_file_ptr := m_output_file_ptr r; m_tiled := m_tiled r |}.

Definition set_m_labels (v : list string) (r : DiskImageResourceOpenEXR) :=
  {| m_filename := m_filename r; m_format := m_format r; m_block_size := m_block_size r;
     m_labels := v; m_input_file_ptr := m_input_file_ptr r;
     m_output_file_ptr := m_output_file_ptr r; m_tiled := m_tiled r |}.

Definition set_m_input_file_ptr (v : option InputFile) (r : DiskImageResourceOpenEXR) :=
  {| m_filename := m_filename r; m_format := m_format r; m_block_size := m_block_size r;
     m_labels := m_labels r; m_input_file_ptr := v;
     m_output_file_ptr := m_output_file_ptr r; m_tiled := m_tiled r |}.

Definition set_m_output_file_ptr (v : option OutputFile) (r : DiskImageResourceOpenEXR) :=
  {| m_filename := m_filename r; m_format := m_format r; m_block_size := m_block_size r;
     m_labels := m_labels r; m_input_file_ptr := m_input_file_ptr r;
     m_output_file_ptr := v; m_tiled := m_tiled r |}.

Definition set_m_tiled (v : bool) (r : DiskImageResourceOpenEXR) :=
  {| m_filename := m_filename r; m_format := m_format r; m_block_size := m_block_size r;
     m_labels := m_labels r; m_input_file_ptr := m_input_file_ptr r;
     m_output_file_ptr := m_output_file_ptr r; m_tiled := v |}.

(** Updates of the fields of [m_format]. *)
Definition set_cols (v : Z) (f : ImageFormat) :=
  {| cols := v; rows := rows f; planes := planes f;
     pixel_format := pixel_format f; channel_type := channel_type f |}.
Definition set_rows (v : Z) (f : ImageFormat) :=
  {| cols := cols f; rows := v; planes := planes f;
     pixel_format := pixel_format f; channel_type := channel_type f |}.
Definition set_planes (v : Z) (f : ImageFormat) :=
  {| cols := cols f; rows := rows f; planes := v;
     pixel_format := pixel_format f; channel_type := channel_type f |}.
Definition set_pixel_format (v : PixelFormatEnum) (f : ImageFormat) :=
  {| cols := cols f; rows := rows f; planes := planes f;
     pixel_format := v; channel_type := channel_type f |}.
Definition set_channel_type (v : ChannelTypeEnum) (f : ImageFormat) :=
  {| cols := cols f; rows := rows f; planes := planes f;
     pixel_format := pixel_format f; channel_type := v |}.

(** ** The machine and its monad *)

Record Machine := {
  self : DiskImageResourceOpenEXR;
  imf_log : History;
  dest_memory : list Plane
}.

Definition M (A : Type) : Type := Machine -> Result A * Machine.

#[global] Instance M_ret : MRet M := fun A a m => (Ok a, m).

#[global] Instance M_bind : MBind M := fun A B k c m =>
  match c m with
  | (Ok a, m') => k a m'
  | (Throw e, m') => (Throw e, m')
  end.

#[global] Instance M_throw : MThrow Exception M := fun A e m => (Throw e, m).

(** [vw_throw]. *)
Definition vw_throw {A} (e : VwException) : M A := mthrow (Vw e).

(** [VW_ASSERT(cond, exc)]. *)
Definition VW_ASSERT (cond : bool) (e : VwException) : M unit :=
  if cond then mret tt else vw_throw e.

(** The object as it is now, and an assignment to it. *)
Definition this : M DiskImageResourceOpenEXR := fun m => (Ok (self m), m).

Definition assign (f : DiskImageResourceOpenEXR -> DiskImageResourceOpenEXR) : M unit :=
  fun m => (Ok tt, {| self := f (self m); imf_log := imf_log m; dest_memory := dest_memory m |}).

Definition log_call (c : ImfCall) (raised : option string) (m : Machine) : Machine :=
  {| self := self m;
     imf_log := {| ev_call := c; ev_raised := raised |} :: imf_log m;
     dest_memory := dest_memory m |}.

(** A call into the library: it is answered from the history, entered in
    it, and throws what the library throws. *)
Definition imf {A} (c : ImfCall) (answer : History -> string + A) : M A :=
  fun m =>
    match answer (imf_log m) with
    | inr a => (Ok a, log_call c None m)
    | inl what => (Throw (Iex_BaseExc what), log_call c (Some what) m)
    end.

(** A call into Vision Workbench that returns or throws. *)
Definition vw {A} (r : VwException + A) : M A :=
  match r with
  | inr a => mret a
  | inl e => vw_throw e
  end.

(** [try { body } catch (Iex::BaseExc e) { handler(e.what()) }]: the
    exceptions of Vision Workbench pass through. *)
Definition try_catch {A} (body : M A) (handler : string -> M A) : M A :=
  fun m =>
    match body m with
    | (Throw (Iex_BaseExc what), m') => handler what m'
    | r => r
    end.

(** [convert(dest, src)] on the caller's destination: its memory is
    replaced by what [convert] returns. *)
Definition store_dest (d : list Plane) : M unit :=
  fun m => (Ok tt, {| self := self m; imf_log := imf_log m; dest_memory := d |}).

Definition load_dest : M (list Plane) := fun m => (Ok (dest_memory m), m).

(** ** DiskImageResourceOpenEXR.cc *)

(** [openexr_channel_string_of_pixel_type]: the label of a channel of the
    file, from the pixel type of the source image. *)
Definition openexr_channel_string_of_pixel_type
    (pixel_format : PixelFormatEnum) (channel : Z) : VwException + string :=
  let invalid :=
    ArgumentErr ("ChannelStringOfPixelType: Invalid channel number ("
                 +:+ show_int channel +:+ ")") in
  match pixel_format with
  | VW_PIXEL_RGB =>
      if channel =? 0 then inr "R"
      else if channel =? 1 then inr "G"
      else if channel =? 2 then inr "B"
      else inl invalid
  | VW_PIXEL_RGBA =>
      if channel =? 0 then inr "R"
      else if channel =? 1 then inr "G"
      else if channel =? 2 then inr "B"
      else if channel =? 3 then inr "A"
      else inl invalid
  | _ => inr ("Channel" +:+ show_int channel)
  end.

(** [native_block_size]. *)
Definition native_block_size (r : DiskImageResourceOpenEXR) : Vector2i :=
  m_block_size r.

(** The messages of the [catch] clauses. *)
Definition open_catch_message (filename what : string) : string :=
  "DiskImageResourceOpenEXR: could not open " +:+ filename +:+ ":" +:+ nl +:+ tab +:+ what.

Definition create_catch_message (filename what : string) : string :=
  "DiskImageResourceOpenEXR: Failed to create " +:+ filename +:+ "." +:+ nl +:+ tab +:+ what.

Definition read_catch_message (filename what : string) : string :=
  "Failed to open " +:+ filename +:+ " using the OpenEXR image reader." +:+ nl +:+ tab +:+ what.

Definition write_catch_message (filename what : string) : string :=
  "DiskImageResourceOpenEXR: Failed to write " +:+ filename +:+ "." +:+ nl +:+ tab +:+ what.

(** [header().tileDescription()], which throws on a header without one. *)
Definition Header_tileDescription `{OpenEXR} (h : Header) : M TileDescription :=
  imf (get_tileDescription h)
      (fun _ => match tileDescription h with
                | Some td => inr td
                | None => inl Imf_no_tileDescription
                end).

(** The file [m_input_file_ptr] points to.  The source dereferences the
    pointer unchecked, and only where it has just been assigned. *)
Definition input_file (r : DiskImageResourceOpenEXR) (fallback : InputFile) : InputFile :=
  default fallback (m_input_file_ptr r).

(** [open]: bind the resource to a file for reading. *)
Definition open `{VisionWorkbench} `{OpenEXR} (filename : string) : M unit :=
  try_catch
    (assign (set_m_filename filename) ;;
     r ← this ;
     (if bool_decide (is_Some (m_input_file_ptr r))
      then vw_throw (IOErr "Disk image resources do not yet support reuse.")
      else mret tt) ;;
     h ← imf (new_InputFile filename) (fun past => Imf_InputFile past filename) ;
     let scanline_file := {| in_tiled := false; in_filename := filename; in_header := h |} in
     assign (set_m_input_file_ptr (Some scanline_file)) ;;
     (if hasTileDescription h
      then
        imf (delete_InputFile scanline_file) (fun _ => inr tt) ;;
        h' ← imf (new_TiledInputFile filename) (fun past => Imf_TiledInputFile past filename) ;
        assign (set_m_input_file_ptr
                  (Some {| in_tiled := true; in_filename := filename; in_header := h' |})) ;;
        assign (set_m_tiled true)
      else mret tt) ;;
     r ← this ;
     let header := in_header (input_file r scanline_file) in
     let dw := dataWindow header in
     assign (fun r => set_m_format
               (set_cols (wrap32 (wrap32 ((bbox_max dw).1 - (bbox_min dw).1) + 1)) (m_format r)) r) ;;
     assign (fun r => set_m_format
               (set_rows (wrap32 (wrap32 ((bbox_max dw).2 - (bbox_min dw).2) + 1)) (m_format r)) r) ;;
     let num_channels := Z.of_nat (length (channels header)) in
     assign (fun r => set_m_format (set_planes num_channels (m_format r)) r) ;;
     assign (fun r => set_m_format (set_pixel_format VW_PIXEL_SCALAR (m_format r)) r) ;;
     r ← this ;
     if m_tiled r
     then
       desc ← Header_tileDescription header ;
       assign (set_m_block_size (xSize desc, ySize desc))
     else
       assign (set_m_block_size (cols (m_format r), m_openexr_rows_per_block)))
    (fun what => vw_throw (IOErr (open_catch_message filename what))).

(** The loop of [set_tiled_write] and [set_scanline_write] that labels the
    channels and enters them in the header, [nn] running over [l].  The
    source indexes [m_labels] unchecked; [create] has resized it to the
    plane count. *)
Fixpoint label_channels (l : list Z) (header : Header) : M Header :=
  match l with
  | [] => mret header
  | nn :: l' =>
      r ← this ;
      label ← vw (openexr_channel_string_of_pixel_type (pixel_format (m_format r)) nn) ;
      assign (fun r => set_m_labels (<[Z.to_nat nn := label]> (m_labels r)) r) ;;
      r ← this ;
      label_channels l' (Header_insert_channel (m_labels r !!! Z.to_nat nn) header)
  end.

(** The block "Close and reopen the file" of both functions: it deletes the
    output file through the class [m_tiled] selects and leaves the pointer
    as it is.  A [delete] does not throw. *)
Definition close_output_file : M unit :=
  r ← this ;
  match m_output_file_ptr r with
  | Some f =>
      if m_tiled r
      then imf (delete_TiledOutputFile f) (fun _ => inr tt)
      else imf (delete_OutputFile f) (fun _ => inr tt)
  | None => mret tt
  end.

(** [set_tiled_write]. *)
Definition set_tiled_write `{OpenEXR}
    (tile_width tile_height : Z) (random_tile_order : bool) : M unit :=
  assign (set_m_tiled true) ;;
  assign (set_m_block_size (tile_width, tile_height)) ;;
  close_output_file ;;
  try_catch
    (r ← this ;
     header ← label_channels (seqZ 0 (planes (m_format r)))
                (Header_new (cols (m_format r)) (rows (m_format r))) ;
     r ← this ;
     let header := Header_setTileDescription
                     {| xSize := (m_block_size r).1; ySize := (m_block_size r).2;
                        mode := ONE_LEVEL |} header in
     let header := if random_tile_order then Header_set_lineOrder RANDOM_Y header else header in
     imf (new_TiledOutputFile (m_filename r) header)
         (fun past => Imf_TiledOutputFile past (m_filename r) header) ;;
     assign (set_m_output_file_ptr
               (Some {| out_tiled := true; out_filename := m_filename r; out_header := header |})))
    (fun what => r ← this ; vw_throw (IOErr (create_catch_message (m_filename r) what))).

(** [set_scanline_write]. *)
Definition set_scanline_write `{VisionWorkbench} `{OpenEXR} (scanlines_per_block : Z) : M unit :=
  assign (set_m_tiled false) ;;
  assign (fun r => set_m_block_size (cols (m_format r), scanlines_per_block) r) ;;
  close_output_file ;;
  try_catch
    (r ← this ;
     header ← label_channels (seqZ 0 (planes (m_format r)))
                (Header_new (cols (m_format r)) (rows (m_format r))) ;
     let header := Header_set_lineOrder INCREASING_Y header in
     assign (fun r => set_m_block_size (cols (m_format r), m_openexr_rows_per_block) r) ;;
     r ← this ;
     imf (new_OutputFile (m_filename r) header)
         (fun past => Imf_OutputFile past (m_filename r) header) ;;
     assign (set_m_output_file_ptr
               (Some {| out_tiled := false; out_filename := m_filename r; out_header := header |})))
    (fun what => r ← this ; vw_throw (IOErr (create_catch_message (m_filename r) what))).

Definition create_assert_message (filename : string) : string :=
  "DiskImageResourceOpenEXR: Cannot create " +:+ filename +:+ nl +:+ tab
  +:+ "The image cannot have both multiple channels and multiple planes." +:+ nl.

(** [create]: bind the resource to a file for writing. *)
Definition create `{VisionWorkbench} `{OpenEXR} (filename : string) (format : ImageFormat) : M unit :=
  VW_ASSERT (bool_decide (planes format = 1)
             || bool_decide (pixel_format format = VW_PIXEL_SCALAR))
            (NoImplErr (create_assert_message filename)) ;;
  assign (set_m_filename filename) ;;
  assign (set_m_format format) ;;
  assign (fun r => set_m_format (set_channel_type VW_CHANNEL_FLOAT32 (m_format r)) r) ;;
  n ← vw (num_channels (pixel_format format)) ;
  assign (fun r => set_m_format (set_planes (Z.max (planes format) n) (m_format r)) r) ;;
  assign (fun r => set_m_labels
            (resize (Z.to_nat (planes (m_format r))) "" (m_labels r)) r) ;;
  set_tiled_write 2048 2048 default_random_tile_order.

(** [ImageView<float> image(cols, rows, planes)], for a plane count that is
    not negative, and [image.buffer()]. *)
Definition ImageView_float `{VisionWorkbench} (width height n : Z) : list Plane :=
  replicate (Z.to_nat n) (ImageView_fresh_plane width height).

Definition ImageView_buffer (width height n : Z) (data : list Plane) : ImageBuffer :=
  {| buf_format := {| cols := width; rows := height; planes := n;
                      pixel_format := VW_PIXEL_SCALAR;
                      channel_type := VW_CHANNEL_FLOAT32 |};
     buf_data := data |}.

(** The loop of [read] that copies the channel names of the header into
    [channel_names], from index [i] on. *)
Fixpoint copy_channel_names (chs : list string) (i : nat) (channel_names : list string)
    : list string :=
  match chs with
  | [] => channel_names
  | name :: chs' => copy_channel_names chs' (S i) (<[i := name]> channel_names)
  end.

(** [find(channel_names.begin(), channel_names.end(), name) != channel_names.end()]. *)
Definition found (name : string) (channel_names : list string) : bool :=
  bool_decide (name ∈ channel_names).

(** The reordering of the names when they are labelled as RGB or RGBA. *)
Definition reorder_channel_names (n : Z) (channel_names : list string) : list string :=
  if n =? 3 then
    if found "R" channel_names && found "G" channel_names && found "B" channel_names
    then <[2%nat := "B"]> (<[1%nat := "G"]> (<[0%nat := "R"]> channel_names))
    else channel_names
  else if n =? 4 then
    if found "R" channel_names && found "G" channel_names && found "B" channel_names
       && found "A" channel_names
    then <[3%nat := "A"]> (<[2%nat := "B"]> (<[1%nat := "G"]> (<[0%nat := "R"]> channel_names)))
    else channel_names
  else channel_names.

(** The names [read] ends with for a resource of [n] planes on a header. *)
Definition read_channel_names (n : Z) (header : Header) : list string :=
  reorder_channel_names n
    (copy_channel_names (channels header) 0 (replicate (Z.to_nat n) "")).

(** The loops that build the frame buffer: the slice of plane [nn] goes
    under the name [names[nn]], a later slice replacing an earlier one of
    the same name.  The source indexes [names] unchecked; it has a name for
    each plane. *)
Definition build_frameBuffer (n : Z) (names : list string) : FrameBuffer :=
  foldl (fun fb nn => <[names !!! Z.to_nat nn := nn]> fb) ∅ (seqZ 0 n).

(** The staging image after the library has read: the plane a slice
    addresses holds the samples of the channel the slice is entered under;
    a plane no slice addresses is as it was allocated. *)
Definition read_through (fb : FrameBuffer) (names : list string)
    (decoded : string -> Plane) (image : list Plane) : list Plane :=
  imap (fun nn plane =>
          let name := names !!! nn in
          if bool_decide (fb !! name = Some (Z.of_nat nn)) then decoded name else plane)
       image.

(** The test of both [VW_ASSERT]s on tiled files. *)
Definition on_tile_boundary (bbox : BBox2i) (block_size : Vector2i) : bool :=
  (Z.rem (bbox_min bbox).1 block_size.1 =? 0) && (Z.rem (bbox_min bbox).2 block_size.2 =? 0).

Definition read_assert_message : string :=
  "DiskImageResourceOpenEXR: bbox corner must fall on tile boundary for read of tiled images.".

Definition write_assert_message : string :=
  "DiskImageResourceOpenEXR: bbox corner must fall on tile boundary for writing of tiled images.".

Definition read_unbound_message : string :=
  "DiskImageResourceOpenEXR: Could not read file. No file has been opened.".

Definition write_unbound_message : string :=
  "DiskImageResourceOpenEXR: Could not write file. No file has been opened.".

(** [read]: read the disk image into the buffer [dest], whose memory is
    [dest_memory] of the machine.  The line for the debug log is left out. *)
Definition read `{VisionWorkbench} `{OpenEXR} (dest : ImageFormat) (bbox : BBox2i) : M unit :=
  r ← this ;
  match m_input_file_ptr r with
  | None => vw_throw (LogicErr read_unbound_message)
  | Some f =>
      try_catch
        (let header := in_header f in
         let height := bbox_height bbox in
         let width := bbox_width bbox in
         let n := planes (m_format r) in
         let channel_names := read_channel_names n header in
         let src_image := ImageView_float width height n in
         let frameBuffer := build_frameBuffer n channel_names in
         decoded ←
           (if m_tiled r
            then
              VW_ASSERT (on_tile_boundary bbox (m_block_size r)) (ArgumentErr read_assert_message) ;;
              imf (in_setFrameBuffer f frameBuffer)
                  (fun past => Imf_in_setFrameBuffer past f frameBuffer) ;;
              let first_tile_x := Z.quot (bbox_min bbox).1 (m_block_size r).1 in
              let first_tile_y := Z.quot (bbox_min bbox).2 (m_block_size r).2 in
              let last_tile_x := Z.quot (wrap32 ((bbox_max bbox).1 - 1)) (m_block_size r).1 in
              let last_tile_y := Z.quot (wrap32 ((bbox_max bbox).2 - 1)) (m_block_size r).2 in
              imf (readTiles f first_tile_x last_tile_x first_tile_y last_tile_y)
                  (fun past => Imf_readTiles past f first_tile_x last_tile_x first_tile_y last_tile_y)
            else
              imf (in_setFrameBuffer f frameBuffer)
                  (fun past => Imf_in_setFrameBuffer past f frameBuffer) ;;
              let y1 := (bbox_min bbox).2 in
              let y2 := Z.min (wrap32 ((bbox_min bbox).2 + wrap32 (height - 1)))
                              (rows (m_format r)) in
              imf (readPixels f y1 y2) (fun past => Imf_readPixels past f y1 y2)) ;
         let src_image := read_through frameBuffer channel_names decoded src_image in
         old ← load_dest ;
         new ← vw (convert {| buf_format := dest; buf_data := old |}
                           (ImageView_buffer width height n src_image)) ;
         store_dest new)
        (fun what => vw_throw (IOErr (read_catch_message (m_filename r) what)))
  end.

(** [write]: write the buffer [src] into the disk image.  The line for the
    debug log is left out. *)
Definition write `{VisionWorkbench} `{OpenEXR} (src : ImageBuffer) (bbox : BBox2i) : M unit :=
  r ← this ;
  match m_output_file_ptr r with
  | None => vw_throw (LogicErr write_unbound_message)
  | Some f =>
      let n := planes (m_format r) in
      let openexr_image_block := ImageView_float (bbox_width bbox) (bbox_height bbox) n in
      let dst := ImageView_buffer (bbox_width bbox) (bbox_height bbox) n openexr_image_block in
      openexr_image_block ← vw (convert dst src) ;
      try_catch
        (let frameBuffer := build_frameBuffer (planes (buf_format dst)) (m_labels r) in
         if m_tiled r
         then
           VW_ASSERT (on_tile_boundary bbox (m_block_size r)) (ArgumentErr write_assert_message) ;;
           imf (out_setFrameBuffer f frameBuffer openexr_image_block)
               (fun past => Imf_out_setFrameBuffer past f frameBuffer openexr_image_block) ;;
           let first_tile_x := Z.quot (bbox_min bbox).1 (m_block_size r).1 in
           let first_tile_y := Z.quot (bbox_min bbox).2 (m_block_size r).2 in
           let last_tile_x := Z.quot (wrap32 ((bbox_max bbox).1 - 1)) (m_block_size r).1 in
           let last_tile_y := Z.quot (wrap32 ((bbox_max bbox).2 - 1)) (m_block_size r).2 in
           imf (writeTiles f first_tile_x last_tile_x first_tile_y last_tile_y)
               (fun past => Imf_writeTiles past f first_tile_x last_tile_x first_tile_y last_tile_y)
         else
           imf (out_setFrameBuffer f frameBuffer openexr_image_block)
               (fun past => Imf_out_setFrameBuffer past f frameBuffer openexr_image_block) ;;
           imf (writePixels f (bbox_height bbox))
               (fun past => Imf_writePixels past f (bbox_height bbox)))
        (fun what => vw_throw (IOErr (write_catch_message (m_filename r) what)))
  end.

(** ** What the theorems on [DiskImageResourceOpenEXR] speak about *)

(** The resource is bound for reading to [f] and its plane count is the
    number of channels of the header of [f], as [open] leaves it. *)
Definition bound_for_read (r : DiskImageResourceOpenEXR) (f : InputFile) : Prop :=
  m_input_file_ptr r = Some f /\
  planes (m_format r) = Z.of_nat (length (channels (in_header f))).

(** The states of the description: no file opened for reading and none for
    writing. *)
Definition unbound (r : DiskImageResourceOpenEXR) : Prop :=
  m_input_file_ptr r = None /\ m_output_file_ptr r = None.

(** The library accepts the frame buffers set on [f] and answers the reads
    of [f] with the samples [decoded] of each channel. *)
Definition reads_as `{OpenEXR} (f : InputFile) (decoded : string -> Plane) : Prop :=
  (forall past fb, Imf_in_setFrameBuffer past f fb = inr tt) /\
  (forall past dx1 dx2 dy1 dy2, Imf_readTiles past f dx1 dx2 dy1 dy2 = inr decoded) /\
  (forall past y1 y2, Imf_readPixels past f y1 y2 = inr decoded).

(** The machine [m] with other labels. *)
Definition with_labels (labels : list string) (m : Machine) : Machine :=
  {| self := set_m_labels labels (self m);
     imf_log := imf_log m;
     dest_memory := dest_memory m |}.

(** What [read] leaves when it fills the destination from a staging image
    of the planes [staged]: it returns, and the memory of the destination
    is what [convert] makes of these planes; or [convert] throws, [read]
    throws the same, and the memory is as it was. *)
Definition filled_from `{VisionWorkbench} (staged : list Plane)
    (dest : ImageFormat) (bbox : BBox2i) (m : Machine) (after : Result unit * Machine) : Prop :=
  match convert {| buf_format := dest; buf_data := dest_memory m |}
                (ImageView_buffer (bbox_width bbox) (bbox_height bbox)
                                  (Z.of_nat (length staged)) staged) with
  | inr new => after.1 = Ok tt /\ dest_memory after.2 = new /\ self after.2 = self m
  | inl e => after.1 = Throw (Vw e) /\ dest_memory after.2 = dest_memory m /\ self after.2 = self m
  end.


(** The library raised an exception with text [what] in the part of the
    history that lies between [before] and [after]. *)
Definition raised_between (before after : History) (what : string) : Prop :=
  exists new c,
    after = (new ++ before)%list /\ {| ev_call := c; ev_raised := Some what |} ∈ new.

(** An operation hands every exception of the library on as an [IOErr]
    whose message ends with the text of that exception, and lets none
    through. *)
Definition translates_library_exceptions {A} (op : M A) : Prop :=
  forall m,
    (forall what, raised_between (imf_log m) (imf_log (op m).2) what ->
       exists before, (op m).1 = Throw (Vw (IOErr (before +:+ what)))) /\
    (forall what, (op m).1 <> Throw (Iex_BaseExc what)).

(** The pixel kind has more than one channel; the format has more than one
    plane. *)
Definition multi_channel `{VisionWorkbench} (pf : PixelFormatEnum) : Prop :=
  exists n, num_channels pf = inr n /\ 1 < n.


(** ** A small installation to run the functions on *)

Definition header_rgb : Header :=
  {| dataWindow := {| bbox_min := (0, 0); bbox_max := (99, 99) |};
     channels := ["B"; "G"; "R"];
     tileDescription := None;
     lineOrder := INCREASING_Y |}.

Definition header_tiles : Header :=
  {| dataWindow := {| bbox_min := (0, 0); bbox_max := (1023, 1023) |};
     channels := ["Channel0"];
     tileDescription := Some {| xSize := 256; ySize := 256; mode := ONE_LEVEL |};
     lineOrder := INCREASING_Y |}.

Definition header_xyz : Header :=
  {| dataWindow := {| bbox_min := (0, 0); bbox_max := (99, 99) |};
     channels := ["X"; "Y"; "Z"];
     tileDescription := None;
     lineOrder := INCREASING_Y |}.

Definition samples_of (name : string) : Plane :=
  if String.eqb name "R" then [1]
  else if String.eqb name "G" then [2]
  else if String.eqb name "B" then [3]
  else if String.eqb name "X" then [7]
  else if String.eqb name "Y" then [8]
  else if String.eqb name "Z" then [9]
  else [0].

(** A library with three files to read, which creates every file but the
    one with the empty name. *)
Definition three_files : OpenEXR :=
  {| Imf_InputFile := fun _ filename =>
       if String.eqb filename "rgb.exr" then inr header_rgb
       else if String.eqb filename "xyz.exr" then inr header_xyz
       else if String.eqb filename "tiles.exr" then inr header_tiles
       else inl "Cannot open image file.";
     Imf_TiledInputFile := fun _ filename =>
       if String.eqb filename "tiles.exr" then inr header_tiles
       else inl "Cannot open image file.";
     Imf_TiledOutputFile := fun _ filename _ =>
       if String.eqb filename "" then inl "Cannot open image file." else inr tt;
     Imf_OutputFile := fun _ filename _ =>
       if String.eqb filename "" then inl "Cannot open image file." else inr tt;
     Imf_in_setFrameBuffer := fun _ _ _ => inr tt;
     Imf_readTiles := fun _ _ _ _ _ _ => inr samples_of;
     Imf_readPixels := fun _ _ _ _ => inr samples_of;
     Imf_out_setFrameBuffer := fun _ _ _ _ => inr tt;
     Imf_writeTiles := fun _ _ _ _ _ _ => inr tt;
     Imf_writePixels := fun _ _ _ => inr tt;
     Imf_no_tileDescription := "No tile description." |}.

(** Vision Workbench with three pixel kinds, ten rows to a block, and a
    [convert] between buffers of one element type, which copies. *)
Definition three_kinds : VisionWorkbench :=
  {| num_channels := fun pf =>
       match pf with
       | VW_PIXEL_SCALAR => inr 1
       | VW_PIXEL_RGB => inr 3
       | VW_PIXEL_RGBA => inr 4
       | VW_PIXEL_other _ => inl (ArgumentErr "Unrecognized or unsupported pixel format.")
       end;
     m_openexr_rows_per_block := 10;
     convert := fun dst src => inr (buf_data src);
     ImageView_fresh_plane := fun _ _ => [];
     default_random_tile_order := false |}.

Definition no_format : ImageFormat :=
  {| cols := 0; rows := 0; planes := 0;
     pixel_format := VW_PIXEL_SCALAR; channel_type := VW_CHANNEL_FLOAT32 |}.

Definition fresh_resource : DiskImageResourceOpenEXR :=
  {| m_filename := ""; m_format := no_format; m_block_size := (0, 0); m_labels := [];
     m_input_file_ptr := None; m_output_file_ptr := None; m_tiled := false |}.

Definition fresh_machine : Machine :=
  {| self := fresh_resource; imf_log := []; dest_memory := [] |}.

Definition float_format (width height n : Z) (pf : PixelFormatEnum) : ImageFormat :=
  {| cols := width; rows := height; planes := n;
     pixel_format := pf; channel_type := VW_CHANNEL_FLOAT32 |}.

Definition box (x0 y0 x1 y1 : Z) : BBox2i :=
  {| bbox_min := (x0, y0); bbox_max := (x1, y1) |}.

(** The machines after [open] on each of the files and after a [create]. *)
Definition rgb_machine : Machine :=
  (@open three_kinds three_files "rgb.exr" fresh_machine).2.

Definition xyz_machine : Machine :=
  (@open three_kinds three_files "xyz.exr" fresh_machine).2.

Definition tiles_machine : Machine :=
  (@open three_kinds three_files "tiles.exr" fresh_machine).2.

Definition created_machine : Machine :=
  (@create three_kinds three_files "out.exr" (float_format 100 100 1 VW_PIXEL_SCALAR)
           fresh_machine).2.

Definition file_of (filename : string) (h : Header) (tiled : bool) : InputFile :=
  {| in_tiled := tiled; in_filename := filename; in_header := h |}.

(** ** GeoReference.h *)

(** The header declares the class; the bodies of its member functions are in
    GeoReference.cc and the base class in GeoReferenceBase.h, neither of
    which is among the sources.  The record has the four matrices the class
    declares; what computes on them follows the description of the system.
    [double] values are taken as exact rationals: rounding is not
    modelled. *)
Module Cartography.

Local Open Scope Q_scope.

(** [Matrix<double,3,3>]. *)
Record Matrix3x3 := {
  e00 : Q; e01 : Q; e02 : Q;
  e10 : Q; e11 : Q; e12 : Q;
  e20 : Q; e21 : Q; e22 : Q
}.

(** [Vector2]. *)
Definition Vector2 : Type := Q * Q.

Definition Veq (u v : Vector2) : Prop := u.1 == v.1 /\ u.2 == v.2.

Definition identity_matrix : Matrix3x3 :=
  {| e00 := 1; e01 := 0; e02 := 0;
     e10 := 0; e11 := 1; e12 := 0;
     e20 := 0; e21 := 0; e22 := 1 |}.

(** The product of two matrices: [mul a b] applies [b] first. *)
Definition mul (a b : Matrix3x3) : Matrix3x3 :=
  {| e00 := e00 a * e00 b + e01 a * e10 b + e02 a * e20 b;
     e01 := e00 a * e01 b + e01 a * e11 b + e02 a * e21 b;
     e02 := e00 a * e02 b + e01 a * e12 b + e02 a * e22 b;
     e10 := e10 a * e00 b + e11 a * e10 b + e12 a * e20 b;
     e11 := e10 a * e01 b + e11 a * e11 b + e12 a * e21 b;
     e12 := e10 a * e02 b + e11 a * e12 b + e12 a * e22 b;
     e20 := e20 a * e00 b + e21 a * e10 b + e22 a * e20 b;
     e21 := e20 a * e01 b + e21 a * e11 b + e22 a * e21 b;
     e22 := e20 a * e02 b + e21 a * e12 b + e22 a * e22 b |}.

Definition det (m : Matrix3x3) : Q :=
  e00 m * (e11 m * e22 m - e12 m * e21 m)
  - e01 m * (e10 m * e22 m - e12 m * e20 m)
  + e02 m * (e10 m * e21 m - e11 m * e20 m).

(** The inverse of a matrix, by its adjugate. *)
Definition inverse (m : Matrix3x3) : Matrix3x3 :=
  let d := det m in
  {| e00 := (e11 m * e22 m - e12 m * e21 m) / d;
     e01 := (e02 m * e21 m - e01 m * e22 m) / d;
     e02 := (e01 m * e12 m - e02 m * e11 m) / d;
     e10 := (e12 m * e20 m - e10 m * e22 m) / d;
     e11 := (e00 m * e22 m - e02 m * e20 m) / d;
     e12 := (e02 m * e10 m - e00 m * e12 m) / d;
     e20 := (e10 m * e21 m - e11 m * e20 m) / d;
     e21 := (e01 m * e20 m - e00 m * e21 m) / d;
     e22 := (e00 m * e11 m - e01 m * e10 m) / d |}.

(** [Shift(tx, ty)] of the description. *)
Definition Shift (tx ty : Q) : Matrix3x3 :=
  {| e00 := 1; e01 := 0; e02 := tx;
     e10 := 0; e11 := 1; e12 := ty;
     e20 := 0; e21 := 0; e22 := 1 |}.

(** A transform applied to a point: the point is [(x, y, 1)], and of the
    product the first two coordinates are kept. *)
Definition apply (m : Matrix3x3) (v : Vector2) : Vector2 :=
  (e00 m * v.1 + e01 m * v.2 + e02 m, e10 m * v.1 + e11 m * v.2 + e12 m).


Definition singular (m : Matrix3x3) : bool := Qeq_bool (det m) 0.

Inductive PixelInterpretation := PixelAsArea | PixelAsPoint.

(** The matrices of the class, and the pixel convention of its base. *)
Record GeoReference := {
  m_transform : Matrix3x3;
  m_inv_transform : Matrix3x3;
  m_shifted_transform : Matrix3x3;
  m_inv_shifted_transform : Matrix3x3;
  pixel_interpretation : PixelInterpretation
}.

(** Modelled from the spec: the constructor [GeoReference()] of
    GeoReference.cc, "a GeoReference starts with an identity transform". *)
Definition GeoReference_new (convention : PixelInterpretation) : GeoReference :=
  {| m_transform := identity_matrix;
     m_inv_transform := inverse identity_matrix;
     m_shifted_transform := mul identity_matrix (Shift (1 # 2) (1 # 2));
     m_inv_shifted_transform := inverse (mul identity_matrix (Shift (1 # 2) (1 # 2)));
     pixel_interpretation := convention |}.

Definition singular_message : string := "GeoReference: the transform is singular.".

(** Modelled from the spec: [set_transform] of GeoReference.cc, which
    "replaces the raw transform; recomputes inverse and convention-shifted
    native transform/inverse; fails with an ArgumentError if T is singular",
    the shifted transform being "T ∘ Shift(0.5, 0.5)" and its inverse
    "derived from native".  The description does not give the text of the
    error. *)
Definition set_transform (T : Matrix3x3) (g : GeoReference) : VwException + GeoReference :=
  if singular T then inl (ArgumentErr singular_message)
  else inr {| m_transform := T;
              m_inv_transform := inverse T;
              m_shifted_transform := mul T (Shift (1 # 2) (1 # 2));
              m_inv_shifted_transform := inverse (mul T (Shift (1 # 2) (1 # 2)));
              pixel_interpretation := pixel_interpretation g |}.

(** Modelled from the spec: [set_pixel_interpretation] of
    GeoReferenceBase.h, the change of the pixel convention. *)
Definition set_pixel_interpretation (convention : PixelInterpretation) (g : GeoReference)
    : GeoReference :=
  {| m_transform := m_transform g;
     m_inv_transform := m_inv_transform g;
     m_shifted_transform := m_shifted_transform g;
     m_inv_shifted_transform := m_inv_shifted_transform g;
     pixel_interpretation := convention |}.

(** Modelled from the spec: [vw_native_transform] of GeoReference.cc,
    "native = (convention == PixelAsArea) ? T ∘ Shift(0.5, 0.5) : T". *)
Definition vw_native_transform (g : GeoReference) : Matrix3x3 :=
  match pixel_interpretation g with
  | PixelAsArea => m_shifted_transform g
  | PixelAsPoint => m_transform g
  end.


(** Modelled from the spec: [pixel_to_point] of GeoReference.cc, which
    applies the native transform. *)
Definition pixel_to_point (g : GeoReference) (pix : Vector2) : Vector2 :=
  apply (vw_native_transform g) pix.




(** A raw transform to run the functions on: ten units to a pixel, rows
    going down, the origin at (100, 200). *)
Definition ten_to_a_pixel : Matrix3x3 :=
  {| e00 := 10; e01 := 0; e02 := 100;
     e10 := 0; e11 := - (10); e12 := 200;
     e20 := 0; e21 := 0; e22 := 1 |}.

(** The georeference after [set_transform] with it. *)
Definition ten_georeference : GeoReference :=
  match set_transform ten_to_a_pixel (GeoReference_new PixelAsPoint) with
  | inr g => g
  | inl _ => GeoReference_new PixelAsPoint
  end.

End Cartography.

(** ** More of DiskImageResourceOpenEXR.cc *)

(** The label of channel [nn], where the function above returns one. *)
Definition label_text (pf : PixelFormatEnum) (nn : Z) : string :=
  match openexr_channel_string_of_pixel_type pf nn with
  | inr label => label
  | inl _ => ""
  end.

(** The labels of [n] planes in the order of the planes, and the channels
    of a header in which they have been entered one after the other. *)
Definition written_labels (pf : PixelFormatEnum) (n : Z) : list string :=
  label_text pf <$> seqZ 0 n.

Definition written_channels (pf : PixelFormatEnum) (n : Z) : list string :=
  foldl (fun chs nn => ChannelList_insert (label_text pf nn) chs) [] (seqZ 0 n).

(** [~DiskImageResourceOpenEXR]: both files are deleted through the class
    that [m_tiled] selects. *)
Definition destructor : M unit :=
  r ← this ;
  match m_input_file_ptr r with
  | Some f =>
      if m_tiled r
      then imf (delete_TiledInputFile f) (fun _ => inr tt)
      else imf (delete_InputFile f) (fun _ => inr tt)
  | None => mret tt
  end ;;
  match m_output_file_ptr r with
  | Some f =>
      if m_tiled r
      then imf (delete_TiledOutputFile f) (fun _ => inr tt)
      else imf (delete_OutputFile f) (fun _ => inr tt)
  | None => mret tt
  end.

(** The headers that [set_tiled_write] and [set_scanline_write] hand to the
    library for a format whose channels all get a label. *)
Definition tiled_header (format : ImageFormat) (tile_width tile_height : Z)
    (random_tile_order : bool) : Header :=
  {| dataWindow := {| bbox_min := (0, 0);
                      bbox_max := (wrap32 (cols format - 1), wrap32 (rows format - 1)) |};
     channels := written_channels (pixel_format format) (planes format);
     tileDescription := Some {| xSize := tile_width; ySize := tile_height; mode := ONE_LEVEL |};
     lineOrder := if random_tile_order then RANDOM_Y else INCREASING_Y |}.

Definition scanline_header (format : ImageFormat) : Header :=
  {| dataWindow := {| bbox_min := (0, 0);
                      bbox_max := (wrap32 (cols format - 1), wrap32 (rows format - 1)) |};
     channels := written_channels (pixel_format format) (planes format);
     tileDescription := None;
     lineOrder := INCREASING_Y |}.

(** The history after the block "Close and reopen the file" of a layout
    function that has set [m_tiled] to [tiled]. *)
Definition closed_log (tiled : bool) (r : DiskImageResourceOpenEXR) (past : History) : History :=
  match m_output_file_ptr r with
  | Some f =>
      {| ev_call := if tiled then delete_TiledOutputFile f else delete_OutputFile f;
         ev_raised := None |} :: past
  | None => past
  end.

(** [strcmp(a, b) < 0], the order of the keys of a channel list. *)
Definition strcmp_lt (a b : string) : Prop := String.compare a b = Lt.

(** The format [create] stores for a requested format whose pixel kind has
    [n] channels. *)
Definition created_format (format : ImageFormat) (n : Z) : ImageFormat :=
  set_planes (Z.max (planes format) n) (set_channel_type VW_CHANNEL_FLOAT32 format).

(** The formats the labelling rejects. *)
Definition too_many_planes (format : ImageFormat) : Prop :=
  (pixel_format format = VW_PIXEL_RGB /\ 3 < planes format) \/
  (pixel_format format = VW_PIXEL_RGBA /\ 4 < planes format).

(** A window that is not empty, starts at no negative coordinate and fits
    in [int32]. *)
Definition proper_window (bbox : BBox2i) : Prop :=
  0 <= (bbox_min bbox).1 < (bbox_max bbox).1 /\ (bbox_max bbox).1 < 2 ^ 31 /\
  0 <= (bbox_min bbox).2 < (bbox_max bbox).2 /\ (bbox_max bbox).2 < 2 ^ 31.

(** The tiles [first .. last] of size [block] cover the pixels
    [origin .. corner - 1] and no tile less does. *)
Definition covers_exactly (first last block origin corner : Z) : Prop :=
  first * block = origin /\ last * block < corner <= (last + 1) * block.

(** A library in which no file reopens as a tiled file, and one that accepts
    no frame buffer for reading. *)
Definition no_tiled_reopen : OpenEXR :=
  {| Imf_InputFile := @Imf_InputFile three_files;
     Imf_TiledInputFile := fun _ _ => inl "Cannot open image file.";
     Imf_TiledOutputFile := @Imf_TiledOutputFile three_files;
     Imf_OutputFile := @Imf_OutputFile three_files;
     Imf_in_setFrameBuffer := @Imf_in_setFrameBuffer three_files;
     Imf_readTiles := @Imf_readTiles three_files;
     Imf_readPixels := @Imf_readPixels three_files;
     Imf_out_setFrameBuffer := @Imf_out_setFrameBuffer three_files;
     Imf_writeTiles := @Imf_writeTiles three_files;
     Imf_writePixels := @Imf_writePixels three_files;
     Imf_no_tileDescription := @Imf_no_tileDescription three_files |}.


(** The machines after a [create] with RGB pixels, after one with eleven
    planes, and after [set_scanline_write] on a created resource. *)
Definition rgb_created_machine : Machine :=
  (@create three_kinds three_files "out.exr" (float_format 100 100 1 VW_PIXEL_RGB)
           fresh_machine).2.

Definition eleven_machine : Machine :=
  (@create three_kinds three_files "out.exr" (float_format 100 100 11 VW_PIXEL_SCALAR)
           fresh_machine).2.



(** The output file that [create] binds for a file name and a format. *)
Definition created_file (filename : string) (format : ImageFormat) : OutputFile :=
  {| out_tiled := true; out_filename := filename;
     out_header := tiled_header format 2048 2048 false |}.

Definition ramp : ImageBuffer :=
  {| buf_format := float_format 100 100 1 VW_PIXEL_SCALAR; buf_data := [[4; 5; 6]] |}.

(** * Theorems *)

(** Running a computation of the monad: its definitions are unfolded and the
    tests on known values decided. *)
Ltac run :=
  cbv [mbind M_bind mret M_ret mthrow M_throw vw_throw VW_ASSERT this assign imf vw
       try_catch load_dest store_dest log_call input_file default
       Header_tileDescription close_output_file] in *;
  simpl in *.

Section Resource.

Context `{VW : VisionWorkbench} `{EXR : OpenEXR}.

(** ** Unbound resources *)

(** C7.  On a resource with no file opened for reading and none for writing,
    [read] and [write] throw [LogicErr] and leave the machine as it was:
    the object, the history of the calls into the library (none is made) and
    the memory of the destination buffer. *)
Theorem unbound_read_write_LogicErr
    (m : Machine) (dest : ImageFormat) (src : ImageBuffer) (bbox : BBox2i) :
  unbound (self m) ->
  read dest bbox m = (Throw (Vw (LogicErr read_unbound_message)), m) /\
  write src bbox m = (Throw (Vw (LogicErr write_unbound_message)), m).
Proof.
  intros [Hin Hout]. unfold read, write. run. rewrite Hin, Hout. done.
Qed.

(** ** A second [open] *)

(** What a second [open] does, in full: it has overwritten [m_filename]
    when it finds the resource in use. *)
Lemma open_in_use (m : Machine) (f : InputFile) (filename : string) :
  m_input_file_ptr (self m) = Some f ->
  open filename m =
    (Throw (Vw (IOErr "Disk image resources do not yet support reuse.")),
     {| self := set_m_filename filename (self m);
        imf_log := imf_log m; dest_memory := dest_memory m |}).
Proof.
  intros Hin. unfold open. run. rewrite Hin. simpl. done.
Qed.

(** C1, as amended.  On a resource bound for reading, [open] throws [IOErr]
    (not [LogicErr]), calls nothing of the library, and leaves the resource
    on the file it was opened on, with its format, block size and tiling. *)
Theorem second_open_IOErr (m : Machine) (f : InputFile) (filename : string) :
  m_input_file_ptr (self m) = Some f ->
  (open filename m).1 = Throw (Vw (IOErr "Disk image resources do not yet support reuse.")) /\
  m_input_file_ptr (self (open filename m).2) = Some f /\
  m_format (self (open filename m).2) = m_format (self m) /\
  m_block_size (self (open filename m).2) = m_block_size (self m) /\
  m_tiled (self (open filename m).2) = m_tiled (self m) /\
  imf_log (open filename m).2 = imf_log m /\
  dest_memory (open filename m).2 = dest_memory m.
Proof.
  intros Hin. rewrite (open_in_use m f filename Hin). simpl. done.
Qed.

(** [open] that returns leaves the resource bound for reading to the file it
    was given, with one plane for each channel of the header. *)
Lemma open_binds (filename : string) (m m' : Machine) :
  open filename m = (Ok tt, m') ->
  exists f, bound_for_read (self m') f /\ in_filename f = filename.
Proof.
  unfold open, bound_for_read. run.
  destruct (m_input_file_ptr (self m)) as [f |]; simpl; [done |].
  destruct (Imf_InputFile _ _) as [what | h]; simpl; [done |].
  destruct (hasTileDescription h); simpl.
  - destruct (Imf_TiledInputFile _ _) as [what | h']; simpl; [done |].
    destruct (tileDescription h'); simpl; [| done].
    intros [= <-]. simpl. eauto.
  - destruct (m_tiled (self m)); simpl.
    + destruct (tileDescription h); simpl; [| done].
      intros [= <-]. simpl. eauto.
    + intros [= <-]. simpl. eauto.
Qed.

(** ** The alignment of windows on tiled files *)




(** ** The labelling of the channels *)

Lemma openexr_channel_string_throws (pf : PixelFormatEnum) (channel : Z) (e : VwException) :
  openexr_channel_string_of_pixel_type pf channel = inl e ->
  exists msg, e = ArgumentErr msg.
Proof.
  unfold openexr_channel_string_of_pixel_type.
  destruct pf; repeat case_match; intros [= <-]; eauto.
Qed.

Lemma with_labels_same (m : Machine) : with_labels (m_labels (self m)) m = m.
Proof. by destruct m as [[] ? ?]. Qed.

(** The loop changes the labels and nothing else; it returns the header or
    throws the [ArgumentErr] of an invalid channel number. *)
Lemma label_channels_spec (l : list Z) (header : Header) (m : Machine) :
  exists labels,
    (exists header', label_channels l header m = (Ok header', with_labels labels m)) \/
    (exists msg, label_channels l header m = (Throw (Vw (ArgumentErr msg)), with_labels labels m)).
Proof.
  revert header m. induction l as [| nn l IH]; intros header m.
  - exists (m_labels (self m)). left. exists header. simpl. run. by rewrite with_labels_same.
  - simpl. run.
    destruct (openexr_channel_string_of_pixel_type _ nn) as [e | label] eqn:Hlabel.
    + apply openexr_channel_string_throws in Hlabel as [msg ->].
      exists (m_labels (self m)). right. exists msg. by rewrite with_labels_same.
    + match goal with
      | |- context [label_channels l ?h ?m1] => destruct (IH h m1) as [labels Hrec]
      end.
      exists labels. destruct Hrec as [[header' ->] | [msg ->]]; [left | right]; eauto.
Qed.

(** [set_tiled_write] keeps the format and sets the block size it is given;
    it returns, or throws an [ArgumentErr] of the labelling or the [IOErr]
    of its [catch] clause. *)
Lemma set_tiled_write_spec (tile_width tile_height : Z) (random_tile_order : bool) (m : Machine) :
  m_format (self (set_tiled_write tile_width tile_height random_tile_order m).2)
    = m_format (self m) /\
  m_block_size (self (set_tiled_write tile_width tile_height random_tile_order m).2)
    = (tile_width, tile_height) /\
  ((set_tiled_write tile_width tile_height random_tile_order m).1 = Ok tt \/
   (exists msg, (set_tiled_write tile_width tile_height random_tile_order m).1
                = Throw (Vw (ArgumentErr msg))) \/
   (exists msg, (set_tiled_write tile_width tile_height random_tile_order m).1
                = Throw (Vw (IOErr msg)))).
Proof.
  unfold set_tiled_write. run.
  destruct (m_output_file_ptr (self m)) as [f |]; simpl;
    (match goal with
     | |- context [label_channels ?l ?h ?m1] =>
         destruct (label_channels_spec l h m1) as [labels [[header' ->] | [msg ->]]]
     end; simpl;
     [ destruct (Imf_TiledOutputFile _ _ _) as [what | []]; simpl; eauto 6
     | eauto 6 ]).
Qed.

(** ** [create] *)

(** C5.  For a format that passes the assertion of [create] and whose pixel
    kind has [n] channels, the plane count of the resource after [create] is
    the larger of the requested plane count and [n], whether the library
    then creates the file or not. *)
Theorem create_plane_count (m : Machine) (filename : string) (format : ImageFormat) (n : Z) :
  planes format = 1 \/ pixel_format format = VW_PIXEL_SCALAR ->
  num_channels (pixel_format format) = inr n ->
  planes (m_format (self (create filename format m).2)) = Z.max (planes format) n.
Proof.
  intros Hformat Hn. unfold create. run.
  replace (bool_decide (planes format = 1) || bool_decide (pixel_format format = VW_PIXEL_SCALAR))
    with true.
  2: { symmetry. apply orb_true_iff.
       destruct Hformat; [left | right]; by apply bool_decide_eq_true. }
  rewrite Hn.
  match goal with
  | |- context [set_tiled_write ?w ?h ?o ?m1] =>
      destruct (set_tiled_write_spec w h o m1) as (Hsame & _ & _);
      destruct (set_tiled_write w h o m1) as [[[] | e] m2]
  end; simpl in *; by rewrite Hsame.
Qed.

(** The assertion of [create] fails exactly on the formats that have
    neither one plane nor scalar pixels. *)
Lemma create_assertion (format : ImageFormat) :
  bool_decide (planes format = 1) || bool_decide (pixel_format format = VW_PIXEL_SCALAR) = false
  <-> planes format <> 1 /\ pixel_format format <> VW_PIXEL_SCALAR.
Proof.
  rewrite orb_false_iff, !bool_decide_eq_false. done.
Qed.


(** A pixel kind other than the scalar one that has a single channel is
    rejected with several planes, although it is not a kind of several
    channels. *)
Lemma create_rejects_single_channel_kind
    (m : Machine) (filename : string) (format : ImageFormat) :
  num_channels (pixel_format format) = inr 1 ->
  pixel_format format <> VW_PIXEL_SCALAR ->
  1 < planes format ->
  create filename format m = (Throw (Vw (NoImplErr (create_assert_message filename))), m) /\
  ~ multi_channel (pixel_format format).
Proof.
  intros Hone Hkind Hplanes. split.
  - assert (Hno : planes format <> 1 /\ pixel_format format <> VW_PIXEL_SCALAR) by (split; [lia | done]).
    apply create_assertion in Hno. unfold create. run. by rewrite Hno.
  - intros (n & Hn & Hlt). rewrite Hone in Hn. injection Hn as <-. lia.
Qed.

(** ** [set_scanline_write] *)

(** C2, what the code does.  After a [set_scanline_write] that returns, the
    block is [m_openexr_rows_per_block] rows high, whatever the argument
    was: the block size set from the argument is overwritten before the
    file is created.  So the height is the argument only when the argument
    is that constant. *)
Theorem set_scanline_write_block_size (m m' : Machine) (scanlines_per_block : Z) :
  set_scanline_write scanlines_per_block m = (Ok tt, m') ->
  native_block_size (self m') = (cols (m_format (self m)), m_openexr_rows_per_block) /\
  ((native_block_size (self m')).2 = scanlines_per_block <->
   scanlines_per_block = m_openexr_rows_per_block).
Proof.
  unfold set_scanline_write. run. intros Hrun.
  assert (Hsize : native_block_size (self m')
                  = (cols (m_format (self m)), m_openexr_rows_per_block)).
  { revert Hrun.
    destruct (m_output_file_ptr (self m)) as [f |]; simpl;
      (match goal with
       | |- context [label_channels ?l ?h ?m1] =>
           destruct (label_channels_spec l h m1) as [labels [[header' ->] | [msg ->]]]
       end; simpl; [| done];
       destruct (Imf_OutputFile _ _ _) as [what | []]; simpl; [done |];
       by intros [= <-]). }
  split; [done |]. rewrite Hsize. simpl. split; congruence.
Qed.

(** ** The order of the channels in [read] *)

Lemma copy_channel_names_app (chs before rest : list string) :
  length rest = length chs ->
  copy_channel_names chs (length before) (before ++ rest) = (before ++ chs)%list.
Proof.
  revert before rest. induction chs as [| name chs IH]; intros before rest Hlen.
  - destruct rest; [| done]. done.
  - destruct rest as [| old rest]; [done |]. simpl.
    rewrite insert_app_r_alt by lia. rewrite Nat.sub_diag. simpl.
    replace (S (length before)) with (length (before ++ [name]))
      by (rewrite length_app; simpl; lia).
    replace (before ++ name :: rest)%list with ((before ++ [name]) ++ rest)%list
      by (by rewrite <- app_assoc).
    rewrite IH by (simpl in Hlen; lia). by rewrite <- app_assoc.
Qed.

(** On a resource with as many planes as the header has channels, the loop
    copies the names of the header. *)
Lemma copy_channel_names_all (chs : list string) (n : Z) :
  n = Z.of_nat (length chs) ->
  copy_channel_names chs 0 (replicate (Z.to_nat n) "") = chs.
Proof.
  intros ->. rewrite Nat2Z.id.
  apply (copy_channel_names_app chs [] (replicate (length chs) "")).
  by rewrite length_replicate.
Qed.

(** With distinct names, the frame buffer has the slice of each plane under
    the name of that plane. *)
Lemma build_frameBuffer_prefix (names : list string) (k : nat) :
  NoDup names -> (k <= length names)%nat ->
  forall i, (i < k)%nat ->
    foldl (fun fb nn => <[names !!! Z.to_nat nn := nn]> fb) (∅ : FrameBuffer)
          ((fun i : nat => Z.of_nat i + 0) <$> seq 0 k) !! (names !!! i)
    = Some (Z.of_nat i).
Proof.
  intros Hdistinct. induction k as [| k IH]; intros Hk i Hi; [lia |].
  rewrite seq_S, fmap_app, foldl_app. simpl. rewrite Z.add_0_r, Nat2Z.id.
  destruct (decide (i = k)) as [-> | Hne].
  - apply lookup_insert_eq.
  - rewrite lookup_insert_ne; [apply IH; lia |].
    intros Hsame. apply Hne. symmetry.
    apply (NoDup_lookup names k i (names !!! k)); [done | |].
    + apply list_lookup_lookup_total_lt. lia.
    + rewrite Hsame. apply list_lookup_lookup_total_lt. lia.
Qed.

Lemma build_frameBuffer_lookup (names : list string) (n : Z) (i : nat) :
  NoDup names -> length names = Z.to_nat n -> (i < length names)%nat ->
  build_frameBuffer n names !! (names !!! i) = Some (Z.of_nat i).
Proof.
  intros Hdistinct Hlen Hi. unfold build_frameBuffer, seqZ.
  apply build_frameBuffer_prefix; [done | lia | lia].
Qed.

(** Then the library fills every plane of the staging image, each with the
    samples of the channel of its name. *)
Lemma read_through_all (names : list string) (n : Z) (decoded : string -> Plane) (p : Plane) :
  NoDup names -> length names = Z.to_nat n ->
  read_through (build_frameBuffer n names) names decoded (replicate (Z.to_nat n) p)
  = decoded <$> names.
Proof.
  intros Hdistinct Hlen. apply list_eq. intros i. unfold read_through.
  rewrite list_lookup_imap, list_lookup_fmap.
  destruct (decide (i < length names)%nat) as [Hi | Hi].
  - rewrite lookup_replicate_2 by lia.
    rewrite (list_lookup_lookup_total_lt names i Hi). simpl.
    rewrite bool_decide_eq_true_2; [done |].
    by apply build_frameBuffer_lookup.
  - rewrite (lookup_ge_None_2 names) by lia.
    rewrite lookup_ge_None_2; [done |]. rewrite length_replicate. lia.
Qed.

(** [read] on a bound resource, aligned if tiled, when the library answers:
    the destination is filled from the samples of the channels in the order
    of [read_channel_names]. *)
Lemma read_fills (m : Machine) (f : InputFile) (dest : ImageFormat) (bbox : BBox2i)
    (decoded : string -> Plane) :
  m_input_file_ptr (self m) = Some f ->
  NoDup (read_channel_names (planes (m_format (self m))) (in_header f)) ->
  Z.of_nat (length (read_channel_names (planes (m_format (self m))) (in_header f)))
    = planes (m_format (self m)) ->
  reads_as f decoded ->
  (m_tiled (self m) = true -> on_tile_boundary bbox (m_block_size (self m)) = true) ->
  filled_from (decoded <$> read_channel_names (planes (m_format (self m))) (in_header f))
              dest bbox m (read dest bbox m).
Proof.
  intros Hin Hdistinct Hlen (Hset & Htiles & Hpixels) Haligned.
  unfold filled_from, read, ImageView_float. run.
  rewrite Hin, length_fmap, Hlen.
  destruct (m_tiled (self m)).
  - rewrite Haligned by done. rewrite Hset, Htiles. simpl.
    rewrite read_through_all by (done || lia).
    destruct (convert _ _); done.
  - rewrite Hset, Hpixels. simpl.
    rewrite read_through_all by (done || lia).
    destruct (convert _ _); done.
Qed.

Lemma found_spec (name : string) (names : list string) :
  found name names = true <-> name ∈ names.
Proof. unfold found. apply bool_decide_eq_true. Qed.

Lemma found_permutation (name : string) (names known : list string) :
  names ≡ₚ known -> name ∈ known -> found name names = true.
Proof. intros Hperm Hin. apply found_spec. by rewrite Hperm. Qed.

(** Three channels named R, G and B in any order come out as R, G, B. *)
Lemma read_channel_names_rgb (header : Header) :
  channels header ≡ₚ ["B"; "G"; "R"] ->
  read_channel_names 3 header = ["R"; "G"; "B"].
Proof.
  intros Hperm. pose proof (Permutation_length Hperm) as Hlen.
  unfold read_channel_names, reorder_channel_names.
  rewrite copy_channel_names_all by (rewrite Hlen; done).
  rewrite !(found_permutation _ _ _ Hperm) by set_solver.
  destruct (channels header) as [| a [| b [| c [| d rest]]]]; done.
Qed.

(** Four channels named R, G, B and A in any order come out as R, G, B, A. *)
Lemma read_channel_names_rgba (header : Header) :
  channels header ≡ₚ ["A"; "B"; "G"; "R"] ->
  read_channel_names 4 header = ["R"; "G"; "B"; "A"].
Proof.
  intros Hperm. pose proof (Permutation_length Hperm) as Hlen.
  unfold read_channel_names, reorder_channel_names.
  rewrite copy_channel_names_all by (rewrite Hlen; done).
  rewrite !(found_permutation _ _ _ Hperm) by set_solver.
  destruct (channels header) as [| a [| b [| c [| d [| e rest]]]]]; done.
Qed.

(** Where the names are not reordered, they are those of the header, in its
    order. *)
Lemma read_channel_names_kept (n : Z) (header : Header) :
  n = Z.of_nat (length (channels header)) ->
  (n = 3 -> ~ ("R" ∈ channels header /\ "G" ∈ channels header /\ "B" ∈ channels header)) ->
  (n = 4 -> ~ ("R" ∈ channels header /\ "G" ∈ channels header /\ "B" ∈ channels header
               /\ "A" ∈ channels header)) ->
  read_channel_names n header = channels header.
Proof.
  intros Hn H3 H4. unfold read_channel_names, reorder_channel_names.
  rewrite copy_channel_names_all by done.
  destruct (n =? 3) eqn:E3; [apply Z.eqb_eq in E3 | destruct (n =? 4) eqn:E4; [apply Z.eqb_eq in E4 |]].
  - destruct (found "R" _ && found "G" _ && found "B" _) eqn:Hall; [| done].
    exfalso. apply (H3 E3). rewrite !andb_true_iff, !found_spec in Hall. tauto.
  - destruct (found "R" _ && found "G" _ && found "B" _ && found "A" _) eqn:Hall; [| done].
    exfalso. apply (H4 E4). rewrite !andb_true_iff, !found_spec in Hall. tauto.
  - done.
Qed.

Lemma NoDup_rgb : NoDup ["R"; "G"; "B"].
Proof. by apply (bool_decide_unpack (NoDup ["R"; "G"; "B"])). Qed.

Lemma NoDup_rgba : NoDup ["R"; "G"; "B"; "A"].
Proof. by apply (bool_decide_unpack (NoDup ["R"; "G"; "B"; "A"])). Qed.

(** C4.  On a resource bound for reading to [f], aligned if tiled, with a
    library that answers the reads of [f] with the samples [decoded]: with 3
    planes and the channels R, G and B reported in any order, [read] fills
    the destination from the planes of R, G and B in this order; with 4
    planes and the channels R, G, B and A, from those of R, G, B and A; with
    any other plane count, from the planes of the channels in the order the
    header reports them. *)
Theorem read_canonical_order (m : Machine) (f : InputFile) (dest : ImageFormat)
    (bbox : BBox2i) (decoded : string -> Plane) :
  m_input_file_ptr (self m) = Some f ->
  reads_as f decoded ->
  (m_tiled (self m) = true -> on_tile_boundary bbox (m_block_size (self m)) = true) ->
  (planes (m_format (self m)) = 3 ->
   channels (in_header f) ≡ₚ ["B"; "G"; "R"] ->
   filled_from [decoded "R"; decoded "G"; decoded "B"] dest bbox m (read dest bbox m)) /\
  (planes (m_format (self m)) = 4 ->
   channels (in_header f) ≡ₚ ["A"; "B"; "G"; "R"] ->
   filled_from [decoded "R"; decoded "G"; decoded "B"; decoded "A"] dest bbox m
               (read dest bbox m)) /\
  (planes (m_format (self m)) <> 3 ->
   planes (m_format (self m)) <> 4 ->
   planes (m_format (self m)) = Z.of_nat (length (channels (in_header f))) ->
   NoDup (channels (in_header f)) ->
   filled_from (decoded <$> channels (in_header f)) dest bbox m (read dest bbox m)).
Proof.
  intros Hin Hreads Haligned.
  pose proof (read_fills m f dest bbox decoded Hin) as Hfills.
  split; [| split].
  - intros Hn Hperm. rewrite Hn, (read_channel_names_rgb _ Hperm) in Hfills.
    apply Hfills; [apply NoDup_rgb | done | done | done].
  - intros Hn Hperm. rewrite Hn, (read_channel_names_rgba _ Hperm) in Hfills.
    apply Hfills; [apply NoDup_rgba | done | done | done].
  - intros H3 H4 Hn Hdistinct.
    rewrite (read_channel_names_kept _ _ Hn) in Hfills by done.
    apply Hfills; done.
Qed.

(** C10.  On a resource bound for reading to [f] with 3 planes whose channel
    names do not comprise all of R, G and B, or with 4 planes whose names
    do not comprise all of R, G, B and A, [read] fills the destination from
    the planes of the channels in the order the header reports them. *)
Theorem read_keeps_order_without_rgb (m : Machine) (f : InputFile) (dest : ImageFormat)
    (bbox : BBox2i) (decoded : string -> Plane) :
  bound_for_read (self m) f ->
  NoDup (channels (in_header f)) ->
  reads_as f decoded ->
  (m_tiled (self m) = true -> on_tile_boundary bbox (m_block_size (self m)) = true) ->
  (planes (m_format (self m)) = 3 /\
   ~ ("R" ∈ channels (in_header f) /\ "G" ∈ channels (in_header f)
      /\ "B" ∈ channels (in_header f))) \/
  (planes (m_format (self m)) = 4 /\
   ~ ("R" ∈ channels (in_header f) /\ "G" ∈ channels (in_header f)
      /\ "B" ∈ channels (in_header f) /\ "A" ∈ channels (in_header f))) ->
  filled_from (decoded <$> channels (in_header f)) dest bbox m (read dest bbox m).
Proof.
  intros [Hin Hn] Hdistinct Hreads Haligned Hcase.
  pose proof (read_fills m f dest bbox decoded Hin) as Hfills.
  rewrite (read_channel_names_kept _ _ Hn) in Hfills.
  - apply Hfills; done.
  - intros H3. destruct Hcase as [[_ Hno] | [H4 _]]; [done | lia].
  - intros H4. destruct Hcase as [[H3 _] | [_ Hno]]; [lia | done].
Qed.

(** ** The exceptions of the library *)

Lemma raised_between_new (before after new : History) (what : string) :
  raised_between before after what ->
  after = (new ++ before)%list ->
  exists c, {| ev_call := c; ev_raised := Some what |} ∈ new.
Proof.
  intros (new' & c & Hsame & Hin) ->. apply app_inv_tail in Hsame as ->. eauto.
Qed.

Lemma append_assoc (s1 s2 s3 : string) : s1 +:+ (s2 +:+ s3) = (s1 +:+ s2) +:+ s3.
Proof.
  induction s1 as [| a s1 IH]; [done |].
  change (String a (s1 +:+ (s2 +:+ s3)) = String a ((s1 +:+ s2) +:+ s3)).
  by rewrite IH.
Qed.

Lemma open_catch_message_ends (filename what : string) :
  exists before, open_catch_message filename what = before +:+ what.
Proof.
  exists ("DiskImageResourceOpenEXR: could not open " +:+ filename +:+ ":" +:+ nl +:+ tab).
  unfold open_catch_message. by rewrite !append_assoc.
Qed.

Lemma create_catch_message_ends (filename what : string) :
  exists before, create_catch_message filename what = before +:+ what.
Proof.
  exists ("DiskImageResourceOpenEXR: Failed to create " +:+ filename +:+ "." +:+ nl +:+ tab).
  unfold create_catch_message. by rewrite !append_assoc.
Qed.

Lemma read_catch_message_ends (filename what : string) :
  exists before, read_catch_message filename what = before +:+ what.
Proof.
  exists ("Failed to open " +:+ filename +:+ " using the OpenEXR image reader." +:+ nl +:+ tab).
  unfold read_catch_message. by rewrite !append_assoc.
Qed.

Lemma write_catch_message_ends (filename what : string) :
  exists before, write_catch_message filename what = before +:+ what.
Proof.
  exists ("DiskImageResourceOpenEXR: Failed to write " +:+ filename +:+ "." +:+ nl +:+ tab).
  unfold write_catch_message. by rewrite !append_assoc.
Qed.

Lemma IOErr_ends {A} (msg what : string) :
  (exists before, msg = before +:+ what) ->
  exists before, @Throw A (Vw (IOErr msg)) = Throw (Vw (IOErr (before +:+ what))).
Proof. intros [before ->]. eauto. Qed.

(** The two halves of [translates_library_exceptions] at a machine whose
    history has grown by a known list of entries and whose outcome is
    known. *)
Ltac new_entries H :=
  first
    [ eapply (raised_between_new _ _ []) in H; [| reflexivity]
    | eapply (raised_between_new _ _ [_]) in H; [| reflexivity]
    | eapply (raised_between_new _ _ [_; _]) in H; [| reflexivity]
    | eapply (raised_between_new _ _ [_; _; _]) in H; [| reflexivity]
    | eapply (raised_between_new _ _ [_; _; _; _]) in H; [| reflexivity]
    | eapply (raised_between_new _ _ [_; _; _; _; _]) in H; [| reflexivity] ].

Ltac ends_with_what :=
  first
    [ apply open_catch_message_ends
    | apply create_catch_message_ends
    | apply read_catch_message_ends
    | apply write_catch_message_ends ].

Ltac translated :=
  simpl; split;
  [ let what := fresh "what" in
    let Hraised := fresh "Hraised" in
    let c := fresh "c" in
    intros what Hraised; new_entries Hraised; destruct Hraised as [c Hraised];
    decompose_list_elem_of; simplify_eq;
    apply IOErr_ends; ends_with_what
  | done ].

Lemma open_translates (filename : string) : translates_library_exceptions (open filename).
Proof.
  intros m. unfold open. run.
  destruct (m_input_file_ptr (self m)) as [f |]; simpl; [translated |].
  destruct (Imf_InputFile _ _) as [what | h]; simpl; [translated |].
  destruct (hasTileDescription h); simpl.
  - destruct (Imf_TiledInputFile _ _) as [what | h']; simpl; [translated |].
    destruct (tileDescription h'); simpl; translated.
  - destruct (m_tiled (self m)); simpl; [| translated].
    destruct (tileDescription h); simpl; translated.
Qed.

Lemma set_tiled_write_translates (tile_width tile_height : Z) (random_tile_order : bool) :
  translates_library_exceptions (set_tiled_write tile_width tile_height random_tile_order).
Proof.
  intros m. unfold set_tiled_write. run.
  destruct (m_output_file_ptr (self m)) as [f |]; simpl;
    (match goal with
     | |- context [label_channels ?l ?h ?m1] =>
         destruct (label_channels_spec l h m1) as [labels [[header' ->] | [msg ->]]]
     end; unfold with_labels; simpl;
     [ destruct (Imf_TiledOutputFile _ _ _) as [what | []]; translated
     | translated ]).
Qed.

Lemma create_translates (filename : string) (format : ImageFormat) :
  translates_library_exceptions (create filename format).
Proof.
  intros m. unfold create. run.
  destruct (bool_decide (planes format = 1)
            || bool_decide (pixel_format format = VW_PIXEL_SCALAR)); [| translated].
  destruct (num_channels (pixel_format format)) as [e | n]; [translated |].
  match goal with
  | |- context [set_tiled_write ?w ?h ?o ?m1] =>
      exact (set_tiled_write_translates w h o m1)
  end.
Qed.

Lemma read_translates (dest : ImageFormat) (bbox : BBox2i) :
  translates_library_exceptions (read dest bbox).
Proof.
  intros m. unfold read. run.
  destruct (m_input_file_ptr (self m)) as [f |]; [| translated].
  destruct (m_tiled (self m)).
  - destruct (on_tile_boundary bbox (m_block_size (self m))); [| translated].
    destruct (Imf_in_setFrameBuffer _ _ _) as [what | []]; [translated |].
    destruct (Imf_readTiles _ _ _ _ _ _) as [what | decoded]; [translated |].
    destruct (convert _ _) as [e | new]; translated.
  - destruct (Imf_in_setFrameBuffer _ _ _) as [what | []]; [translated |].
    destruct (Imf_readPixels _ _ _ _) as [what | decoded]; [translated |].
    destruct (convert _ _) as [e | new]; translated.
Qed.

Lemma write_translates (src : ImageBuffer) (bbox : BBox2i) :
  translates_library_exceptions (write src bbox).
Proof.
  intros m. unfold write. run.
  destruct (m_output_file_ptr (self m)) as [f |]; [| translated].
  destruct (convert _ src) as [e | staged]; [translated |].
  destruct (m_tiled (self m)).
  - destruct (on_tile_boundary bbox (m_block_size (self m))); [| translated].
    destruct (Imf_out_setFrameBuffer _ _ _ _) as [what | []]; [translated |].
    destruct (Imf_writeTiles _ _ _ _ _ _) as [what | []]; translated.
  - destruct (Imf_out_setFrameBuffer _ _ _ _) as [what | []]; [translated |].
    destruct (Imf_writePixels _ _ _) as [what | []]; translated.
Qed.

(** C8.  [open], [create], [read] and [write] hand every exception that the
    library raises during the call on as an [IOErr] whose message ends with
    the text of that exception, and none of them lets an exception of the
    library through. *)
Theorem library_exceptions_become_IOErr
    (filename : string) (format dest : ImageFormat) (src : ImageBuffer) (bbox : BBox2i) :
  translates_library_exceptions (open filename) /\
  translates_library_exceptions (create filename format) /\
  translates_library_exceptions (read dest bbox) /\
  translates_library_exceptions (write src bbox).
Proof.
  split; [apply open_translates |].
  split; [apply create_translates |].
  split; [apply read_translates | apply write_translates].
Qed.

(** ** More on the functions *)


Lemma show_int_inj (a b : Z) : show_int a = show_int b -> a = b.
Proof.
  unfold show_int. intros Hsame.
  assert (Hback : forall z, NilZero.int_of_string (NilZero.string_of_int (Z.to_int z))
                            = Some (Z.to_int z)).
  { intros z. pose proof (DecimalZ.to_of (Z.to_int z)) as Hnorm.
    rewrite DecimalZ.of_to in Hnorm.
    apply NilZero.isi; intros Hnil; rewrite Hnil in Hnorm; discriminate. }
  apply DecimalZ.to_int_inj. pose proof (Hback a) as Ha.
  rewrite Hsame, Hback in Ha. congruence.
Qed.

(** X1.  A label that [openexr_channel_string_of_pixel_type] returns is
    never empty, and two channel numbers that get the same label for one
    pixel format are the same number: no two planes share a label. *)
Theorem channel_labels_distinct (pf : PixelFormatEnum) (c1 c2 : Z) (s1 s2 : string) :
  openexr_channel_string_of_pixel_type pf c1 = inr s1 ->
  openexr_channel_string_of_pixel_type pf c2 = inr s2 ->
  s1 <> "" /\ (s1 = s2 -> c1 = c2).
Proof.
  unfold openexr_channel_string_of_pixel_type.
  destruct pf;
    repeat case_match; intros [= <-] [= <-];
    rewrite ?Z.eqb_eq in *; (split; [done |]); intros Hsame; try lia;
    try discriminate; try (apply String.app_inj in Hsame; by apply show_int_inj).
Qed.

(** The loop returns exactly when every channel gets a label. *)
Lemma label_channels_ok_iff (l : list Z) (header : Header) (m : Machine) :
  (exists header' m', label_channels l header m = (Ok header', m')) <->
  (forall nn, nn ∈ l ->
     exists label, openexr_channel_string_of_pixel_type (pixel_format (m_format (self m))) nn
                   = inr label).
Proof.
  revert header m. induction l as [| nn l IH]; intros header m.
  - split; [intros _ nn Hnn; by apply elem_of_nil in Hnn | intros _; simpl; run; eauto].
  - simpl. run.
    destruct (openexr_channel_string_of_pixel_type _ nn) as [e | label] eqn:Hlabel.
    + split.
      * intros (header' & m' & Hrun). done.
      * intros Hall. destruct (Hall nn) as [label Hnn]; [left |]. congruence.
    + match goal with
      | |- context [label_channels l ?h ?m1] => rewrite (IH h m1)
      end. simpl.
      split.
      * intros Hall nn' Hnn'. apply elem_of_cons in Hnn' as [-> | Hnn']; eauto.
      * intros Hall nn' Hnn'. apply Hall. by right.
Qed.

(** What the loop leaves when every channel gets a label and [m_labels] has
    a place for each of them. *)
Lemma label_channels_run (l : list Z) (header : Header) (m : Machine) :
  (forall nn, nn ∈ l ->
     exists label, openexr_channel_string_of_pixel_type (pixel_format (m_format (self m))) nn
                   = inr label) ->
  (forall nn, nn ∈ l -> 0 <= nn /\ (Z.to_nat nn < length (m_labels (self m)))%nat) ->
  label_channels l header m =
    (Ok (foldl (fun h nn =>
                  Header_insert_channel (label_text (pixel_format (m_format (self m))) nn) h)
               header l),
     with_labels (foldl (fun labels nn =>
                           <[Z.to_nat nn := label_text (pixel_format (m_format (self m))) nn]>
                             labels)
                        (m_labels (self m)) l) m).
Proof.
  revert header m. induction l as [| nn l IH]; intros header m Hall Hrange.
  - simpl. run. by rewrite with_labels_same.
  - simpl. run.
    destruct (Hall nn) as [label Hlabel]; [left |].
    destruct (Hrange nn) as [Hnn Hlt]; [left |].
    assert (Htext : label_text (pixel_format (m_format (self m))) nn = label)
      by (unfold label_text; by rewrite Hlabel).
    rewrite Hlabel.
    match goal with
    | |- context [label_channels l ?h ?m1] => rewrite (IH h m1)
    end; simpl.
    + rewrite list_lookup_total_insert_eq by done. by rewrite Htext.
    + intros nn' Hnn'. apply Hall. by right.
    + intros nn' Hnn'. rewrite length_insert. apply Hrange. by right.
Qed.

(** Which plane counts the labelling accepts. *)
Lemma labels_ok_iff (pf : PixelFormatEnum) (n : Z) :
  (forall nn, nn ∈ seqZ 0 n ->
     exists label, openexr_channel_string_of_pixel_type pf nn = inr label) <->
  ~ ((pf = VW_PIXEL_RGB /\ 3 < n) \/ (pf = VW_PIXEL_RGBA /\ 4 < n)).
Proof.
  split.
  - intros Hall [[-> Hn] | [-> Hn]].
    + destruct (Hall 3) as [label Hlabel]; [apply elem_of_seqZ; lia | done].
    + destruct (Hall 4) as [label Hlabel]; [apply elem_of_seqZ; lia | done].
  - intros Hno nn Hnn. apply elem_of_seqZ in Hnn.
    unfold openexr_channel_string_of_pixel_type.
    destruct pf; repeat case_match; eauto; exfalso; apply Hno;
      rewrite ?Z.eqb_neq in *; [left | right]; (split; [done | lia]).
Qed.

(** The outcome of the loop over all planes, from the format alone. *)
Lemma label_channels_throws_iff (header : Header) (m : Machine) :
  (exists msg m', label_channels (seqZ 0 (planes (m_format (self m)))) header m
                  = (Throw (Vw (ArgumentErr msg)), m')) <->
  (pixel_format (m_format (self m)) = VW_PIXEL_RGB /\ 3 < planes (m_format (self m))) \/
  (pixel_format (m_format (self m)) = VW_PIXEL_RGBA /\ 4 < planes (m_format (self m))).
Proof.
  pose proof (label_channels_ok_iff (seqZ 0 (planes (m_format (self m)))) header m) as Hok.
  rewrite labels_ok_iff in Hok.
  destruct (label_channels_spec (seqZ 0 (planes (m_format (self m)))) header m)
    as [labels [[header' Hrun] | [msg Hrun]]]; rewrite Hrun in *.
  - split; [intros (msg & m' & [=]) |].
    intros Hthrows. exfalso. apply (proj1 Hok); eauto.
  - split; [intros _ | eauto].
    destruct (decide ((pixel_format (m_format (self m)) = VW_PIXEL_RGB
                       /\ 3 < planes (m_format (self m)))
                      \/ (pixel_format (m_format (self m)) = VW_PIXEL_RGBA
                          /\ 4 < planes (m_format (self m))))) as [Hyes | Hno]; [done |].
    apply Hok in Hno as (header' & m' & [=]).
Qed.

(** Both layout functions throw the [ArgumentErr] of the labelling exactly
    on these formats. *)
Lemma set_tiled_write_ArgumentErr_iff
    (m : Machine) (tile_width tile_height : Z) (random_tile_order : bool) :
  (exists msg, (set_tiled_write tile_width tile_height random_tile_order m).1
               = Throw (Vw (ArgumentErr msg))) <->
  (pixel_format (m_format (self m)) = VW_PIXEL_RGB /\ 3 < planes (m_format (self m))) \/
  (pixel_format (m_format (self m)) = VW_PIXEL_RGBA /\ 4 < planes (m_format (self m))).
Proof.
  unfold set_tiled_write. run.
  destruct (m_output_file_ptr (self m)) as [f |]; simpl;
    match goal with
    | |- context [label_channels ?l ?h ?m1] =>
        pose proof (label_channels_throws_iff h m1) as Hiff; simpl in Hiff;
        rewrite <- Hiff;
        destruct (label_channels_spec l h m1) as [labels [[header' ->] | [msg ->]]]
    end; unfold with_labels; simpl;
    try (destruct (Imf_TiledOutputFile _ _ _) as [what | []]; simpl);
    (split; [intros [msg' [=]]; eauto | intros (msg' & m' & [=]); eauto]).
Qed.



Lemma foldl_insert_channel (pf : PixelFormatEnum) (l : list Z) (header : Header) :
  foldl (fun h nn => Header_insert_channel (label_text pf nn) h) header l
  = {| dataWindow := dataWindow header;
       channels := foldl (fun chs nn => ChannelList_insert (label_text pf nn) chs)
                         (channels header) l;
       tileDescription := tileDescription header;
       lineOrder := lineOrder header |}.
Proof.
  revert header. induction l as [| nn l IH]; intros header; simpl.
  - by destruct header.
  - by rewrite IH.
Qed.

Lemma foldl_insert_labels_prefix (f : Z -> string) (labels : list string) (k : nat) :
  (k <= length labels)%nat ->
  foldl (fun ls nn => <[Z.to_nat nn := f nn]> ls) labels
        ((fun i : nat => Z.of_nat i + 0) <$> seq 0 k)
  = ((f <$> ((fun i : nat => Z.of_nat i + 0) <$> seq 0 k)) ++ drop k labels)%list.
Proof.
  induction k as [| k IH]; intros Hk; [by rewrite drop_0 |].
  rewrite seq_S, !fmap_app, foldl_app, IH by lia. simpl.
  rewrite Z.add_0_r, Nat2Z.id.
  destruct (lookup_lt_is_Some_2 labels k) as [old Hold]; [lia |].
  rewrite (drop_S labels old k Hold).
  rewrite insert_app_r_alt by (rewrite !length_fmap, length_seq; lia).
  rewrite !length_fmap, length_seq, Nat.sub_diag. simpl.
  by rewrite <- app_assoc.
Qed.

(** Over all planes the loop leaves [written_labels], when [m_labels] has
    one place for each plane. *)
Lemma foldl_insert_labels (f : Z -> string) (labels : list string) (n : Z) :
  length labels = Z.to_nat n ->
  foldl (fun ls nn => <[Z.to_nat nn := f nn]> ls) labels (seqZ 0 n) = f <$> seqZ 0 n.
Proof.
  intros Hlen. unfold seqZ. rewrite foldl_insert_labels_prefix by lia.
  rewrite drop_ge by lia. by rewrite app_nil_r.
Qed.

Lemma elem_of_seqZ_range (nn n : Z) (labels : list string) :
  length labels = Z.to_nat n -> nn ∈ seqZ 0 n ->
  0 <= nn /\ (Z.to_nat nn < length labels)%nat.
Proof. intros Hlen Hnn. apply elem_of_seqZ in Hnn. lia. Qed.

(** [set_tiled_write] on a format whose channels all get a label, with one
    place in [m_labels] for each plane: what it asks of the library, and
    what it leaves in either case. *)
Lemma set_tiled_write_run (tile_width tile_height : Z) (random_tile_order : bool) (m : Machine) :
  ~ ((pixel_format (m_format (self m)) = VW_PIXEL_RGB /\ 3 < planes (m_format (self m))) \/
     (pixel_format (m_format (self m)) = VW_PIXEL_RGBA /\ 4 < planes (m_format (self m)))) ->
  length (m_labels (self m)) = Z.to_nat (planes (m_format (self m))) ->
  let header := tiled_header (m_format (self m)) tile_width tile_height random_tile_order in
  let past := closed_log true (self m) (imf_log m) in
  let labelled := set_m_labels (written_labels (pixel_format (m_format (self m)))
                                               (planes (m_format (self m))))
                    (set_m_block_size (tile_width, tile_height) (set_m_tiled true (self m))) in
  set_tiled_write tile_width tile_height random_tile_order m =
    match Imf_TiledOutputFile past (m_filename (self m)) header with
    | inr _ =>
        (Ok tt,
         {| self := set_m_output_file_ptr
                      (Some {| out_tiled := true; out_filename := m_filename (self m);
                               out_header := header |}) labelled;
            imf_log := {| ev_call := new_TiledOutputFile (m_filename (self m)) header;
                          ev_raised := None |} :: past;
            dest_memory := dest_memory m |})
    | inl what =>
        (Throw (Vw (IOErr (create_catch_message (m_filename (self m)) what))),
         {| self := labelled;
            imf_log := {| ev_call := new_TiledOutputFile (m_filename (self m)) header;
                          ev_raised := Some what |} :: past;
            dest_memory := dest_memory m |})
    end.
Proof.
  intros Hlabels Hlen. rewrite <- labels_ok_iff in Hlabels.
  unfold set_tiled_write, closed_log, tiled_header, written_labels, written_channels. run.
  destruct (m_output_file_ptr (self m)) as [f |]; simpl;
    (rewrite label_channels_run;
     [ unfold with_labels; simpl;
       rewrite foldl_insert_channel, foldl_insert_labels by done; simpl;
       destruct random_tile_order; simpl;
       destruct (Imf_TiledOutputFile _ _ _) as [what | []]; done
     | done
     | simpl; intros nn Hnn; by apply (elem_of_seqZ_range nn _ _ Hlen) ]).
Qed.

Lemma set_scanline_write_run (scanlines_per_block : Z) (m : Machine) :
  ~ ((pixel_format (m_format (self m)) = VW_PIXEL_RGB /\ 3 < planes (m_format (self m))) \/
     (pixel_format (m_format (self m)) = VW_PIXEL_RGBA /\ 4 < planes (m_format (self m)))) ->
  length (m_labels (self m)) = Z.to_nat (planes (m_format (self m))) ->
  let header := scanline_header (m_format (self m)) in
  let past := closed_log false (self m) (imf_log m) in
  let labelled := set_m_labels (written_labels (pixel_format (m_format (self m)))
                                               (planes (m_format (self m))))
                    (set_m_block_size (cols (m_format (self m)), m_openexr_rows_per_block)
                       (set_m_tiled false (self m))) in
  set_scanline_write scanlines_per_block m =
    match Imf_OutputFile past (m_filename (self m)) header with
    | inr _ =>
        (Ok tt,
         {| self := set_m_output_file_ptr
                      (Some {| out_tiled := false; out_filename := m_filename (self m);
                               out_header := header |}) labelled;
            imf_log := {| ev_call := new_OutputFile (m_filename (self m)) header;
                          ev_raised := None |} :: past;
            dest_memory := dest_memory m |})
    | inl what =>
        (Throw (Vw (IOErr (create_catch_message (m_filename (self m)) what))),
         {| self := labelled;
            imf_log := {| ev_call := new_OutputFile (m_filename (self m)) header;
                          ev_raised := Some what |} :: past;
            dest_memory := dest_memory m |})
    end.
Proof.
  intros Hlabels Hlen. rewrite <- labels_ok_iff in Hlabels.
  unfold set_scanline_write, closed_log, scanline_header, written_labels, written_channels. run.
  destruct (m_output_file_ptr (self m)) as [f |]; simpl;
    (rewrite label_channels_run;
     [ unfold with_labels; simpl;
       rewrite foldl_insert_channel, foldl_insert_labels by done; simpl;
       destruct (Imf_OutputFile _ _ _) as [what | []]; done
     | done
     | simpl; intros nn Hnn; by apply (elem_of_seqZ_range nn _ _ Hlen) ]).
Qed.

(** *** The channel list *)

Lemma strcmp_lt_trans (a b c : string) : strcmp_lt a b -> strcmp_lt b c -> strcmp_lt a c.
Proof.
  unfold strcmp_lt. intros Hab Hbc.
  apply OrderedTypeEx.String_as_OT.cmp_lt in Hab, Hbc.
  apply OrderedTypeEx.String_as_OT.cmp_lt.
  by apply (OrderedTypeEx.String_as_OT.lt_trans _ b).
Qed.

Lemma strcmp_gt (a b : string) : String.compare a b = Gt -> strcmp_lt b a.
Proof. unfold strcmp_lt. intros Hgt. by rewrite String.compare_antisym, Hgt. Qed.

Lemma elem_of_ChannelList_insert (name x : string) (l : list string) :
  x ∈ ChannelList_insert name l <-> x = name \/ x ∈ l.
Proof.
  induction l as [| c l IH]; simpl.
  - rewrite list_elem_of_singleton, elem_of_nil. tauto.
  - destruct (String.compare name c) eqn:Hcmp.
    + apply String.compare_eq_iff in Hcmp as ->. rewrite elem_of_cons. tauto.
    + rewrite !elem_of_cons. tauto.
    + rewrite !elem_of_cons, IH. tauto.
Qed.

(** Entering a name keeps the list in the strict order of [strcmp]. *)
Lemma ChannelList_insert_sorted (name : string) (l : list string) :
  Sorted.StronglySorted strcmp_lt l -> Sorted.StronglySorted strcmp_lt (ChannelList_insert name l).
Proof.
  induction 1 as [| c l Hsorted IH Hall]; simpl.
  - repeat constructor.
  - destruct (String.compare name c) eqn:Hcmp.
    + by constructor.
    + constructor; [by constructor |].
      constructor; [done |].
      eapply Forall_impl; [exact Hall |]. intros x Hx. by apply (strcmp_lt_trans _ c).
    + constructor; [done |].
      apply Forall_forall. intros x Hx.
      apply elem_of_ChannelList_insert in Hx as [-> | Hx].
      * by apply strcmp_gt.
      * by apply (proj1 (Forall_forall _ _) Hall).
Qed.

(** Entering a name that is not in the list adds it and nothing else. *)
Lemma ChannelList_insert_new (name : string) (l : list string) :
  name ∉ l -> ChannelList_insert name l ≡ₚ name :: l.
Proof.
  induction l as [| c l IH]; intros Hnew; simpl; [done |].
  apply not_elem_of_cons in Hnew as [Hne Hnew].
  destruct (String.compare name c) eqn:Hcmp.
  - by apply String.compare_eq_iff in Hcmp.
  - done.
  - rewrite IH by done. apply Permutation_swap.
Qed.

Lemma StronglySorted_lookup_lt (l : list string) (i j : nat) (x y : string) :
  Sorted.StronglySorted strcmp_lt l -> l !! i = Some x -> l !! j = Some y -> (i < j)%nat ->
  strcmp_lt x y.
Proof.
  intros Hsorted. revert i j. induction Hsorted as [| c l Hsorted IH Hall]; intros i j Hi Hj Hlt.
  - done.
  - destruct j as [| j]; [lia |]. destruct i as [| i]; simpl in *.
    + injection Hi as <-. apply (proj1 (Forall_forall _ _) Hall).
      by apply list_elem_of_lookup_2 in Hj.
    + apply (IH i j); [done | done | lia].
Qed.

(** [create] that returns: what held before, and the machine it leaves. *)
Lemma create_ok (filename : string) (format : ImageFormat) (m m' : Machine) :
  create filename format m = (Ok tt, m') ->
  exists n,
    (planes format = 1 \/ pixel_format format = VW_PIXEL_SCALAR) /\
    num_channels (pixel_format format) = inr n /\
    ~ too_many_planes (created_format format n) /\
    let header := tiled_header (created_format format n) 2048 2048 default_random_tile_order in
    let past := closed_log true (self m) (imf_log m) in
    Imf_TiledOutputFile past filename header = inr tt /\
    m' = {| self := {| m_filename := filename;
                       m_format := created_format format n;
                       m_block_size := (2048, 2048);
                       m_labels := written_labels (pixel_format format)
                                     (planes (created_format format n));
                       m_input_file_ptr := m_input_file_ptr (self m);
                       m_output_file_ptr :=
                         Some {| out_tiled := true; out_filename := filename;
                                 out_header := header |};
                       m_tiled := true |};
            imf_log := {| ev_call := new_TiledOutputFile filename header;
                          ev_raised := None |} :: past;
            dest_memory := dest_memory m |}.
Proof.
  unfold create. run.
  destruct (bool_decide (planes format = 1)
            || bool_decide (pixel_format format = VW_PIXEL_SCALAR)) eqn:Hassert; [| done].
  destruct (num_channels (pixel_format format)) as [e | n] eqn:Hn; [done |].
  intros Hrun. exists n.
  split. { apply orb_true_iff in Hassert as [H1 | H1]; apply bool_decide_eq_true in H1; tauto. }
  split; [done |].
  match type of Hrun with
  | set_tiled_write ?w ?h ?o ?m1 = _ =>
      assert (Hlabels : ~ too_many_planes (created_format format n));
      [ intros Hbad;
        apply (set_tiled_write_ArgumentErr_iff m1 w h o) in Hbad as [msg Hmsg];
        rewrite Hrun in Hmsg; done
      | split; [exact Hlabels |];
        rewrite (set_tiled_write_run w h o m1 Hlabels) in Hrun
          by (simpl; by rewrite length_resize) ]
  end.
  simpl in Hrun. unfold closed_log in *. simpl in *.
  destruct (Imf_TiledOutputFile _ _ _) as [what | []]; [done |].
  split; [done |]. by injection Hrun as <-.
Qed.

(** *** The names in the header that is written *)

Lemma label_text_ok (pf : PixelFormatEnum) (n nn : Z) :
  ~ ((pf = VW_PIXEL_RGB /\ 3 < n) \/ (pf = VW_PIXEL_RGBA /\ 4 < n)) ->
  nn ∈ seqZ 0 n ->
  openexr_channel_string_of_pixel_type pf nn = inr (label_text pf nn).
Proof.
  intros Hok Hnn. rewrite <- labels_ok_iff in Hok. destruct (Hok nn Hnn) as [label Hlabel].
  unfold label_text. by rewrite Hlabel.
Qed.

Lemma label_differ (pf : PixelFormatEnum) (c1 c2 : Z) (s1 s2 : string) :
  openexr_channel_string_of_pixel_type pf c1 = inr s1 ->
  openexr_channel_string_of_pixel_type pf c2 = inr s2 ->
  s1 = s2 -> c1 = c2.
Proof.
  unfold openexr_channel_string_of_pixel_type.
  destruct pf;
    repeat case_match; intros [= <-] [= <-];
    rewrite ?Z.eqb_eq in *; intros Hsame; try lia;
    try discriminate; try (apply String.app_inj in Hsame; by apply show_int_inj).
Qed.

Lemma written_labels_distinct (pf : PixelFormatEnum) (n : Z) :
  ~ ((pf = VW_PIXEL_RGB /\ 3 < n) \/ (pf = VW_PIXEL_RGBA /\ 4 < n)) ->
  NoDup (written_labels pf n).
Proof.
  intros Hok. unfold written_labels.
  apply NoDup_fmap_2_strong; [| apply NoDup_seqZ].
  intros c1 c2 H1 H2 Hsame.
  apply (label_differ pf c1 c2 _ _ (label_text_ok pf n c1 Hok H1)
           (label_text_ok pf n c2 Hok H2) Hsame).
Qed.

Lemma foldl_ChannelList_insert (names acc : list string) :
  NoDup (acc ++ names) ->
  foldl (fun chs name => ChannelList_insert name chs) acc names ≡ₚ (acc ++ names)%list.
Proof.
  revert acc. induction names as [| name names IH]; intros acc Hdistinct; simpl.
  - by rewrite app_nil_r.
  - assert (Hnew : name ∉ acc).
    { apply NoDup_app in Hdistinct as (_ & Hdisjoint & _).
      intros Hin. apply (Hdisjoint name Hin). by left. }
    rewrite IH.
    + rewrite (ChannelList_insert_new name acc Hnew). simpl.
      by rewrite Permutation_middle.
    + rewrite (ChannelList_insert_new name acc Hnew). simpl.
      by rewrite Permutation_middle.
Qed.

Lemma foldl_ChannelList_insert_sorted (names acc : list string) :
  Sorted.StronglySorted strcmp_lt acc ->
  Sorted.StronglySorted strcmp_lt
    (foldl (fun chs name => ChannelList_insert name chs) acc names).
Proof.
  revert acc. induction names as [| name names IH]; intros acc Hsorted; simpl; [done |].
  apply IH. by apply ChannelList_insert_sorted.
Qed.

Lemma written_channels_fold (pf : PixelFormatEnum) (n : Z) :
  written_channels pf n
  = foldl (fun chs name => ChannelList_insert name chs) [] (written_labels pf n).
Proof. unfold written_channels, written_labels. by rewrite foldl_fmap. Qed.

(** The header has the labels of the planes, each once, in the order of
    [strcmp]. *)
Lemma written_channels_spec (pf : PixelFormatEnum) (n : Z) :
  ~ ((pf = VW_PIXEL_RGB /\ 3 < n) \/ (pf = VW_PIXEL_RGBA /\ 4 < n)) ->
  written_channels pf n ≡ₚ written_labels pf n /\
  Sorted.StronglySorted strcmp_lt (written_channels pf n).
Proof.
  intros Hok. rewrite written_channels_fold. split.
  - apply (foldl_ChannelList_insert _ []). simpl. by apply written_labels_distinct.
  - apply foldl_ChannelList_insert_sorted. constructor.
Qed.

(** Up to ten planes, the names [read] uses on a header that was written are
    the labels in the order of the planes. *)
Lemma read_written_names (pf : PixelFormatEnum) (n : Z) (header : Header) :
  channels header = written_channels pf n ->
  n <= 10 ->
  (pf = VW_PIXEL_RGB -> n = 3) ->
  (pf = VW_PIXEL_RGBA -> n = 4) ->
  read_channel_names n header = written_labels pf n.
Proof.
  intros Hchannels Hn Hrgb Hrgba. unfold read_channel_names. rewrite Hchannels.
  destruct (decide (n <= 0)) as [Hneg | Hpos].
  - unfold written_channels, written_labels, seqZ.
    replace (Z.to_nat n) with 0%nat by lia. simpl.
    unfold reorder_channel_names.
    destruct (n =? 3) eqn:E3; [apply Z.eqb_eq in E3; lia |].
    destruct (n =? 4) eqn:E4; [apply Z.eqb_eq in E4; lia | done].
  - assert (Hcases : n = 1 \/ n = 2 \/ n = 3 \/ n = 4 \/ n = 5 \/ n = 6 \/ n = 7
                      \/ n = 8 \/ n = 9 \/ n = 10) by lia.
    destruct pf;
      try (specialize (Hrgb eq_refl)); try (specialize (Hrgba eq_refl));
      repeat (destruct Hcases as [-> | Hcases]; [try lia; by vm_compute |]);
      subst; try lia; by vm_compute.
Qed.

(** From eleven planes on, the labels are not in the order of [strcmp]. *)
Lemma written_labels_unsorted (pf : PixelFormatEnum) (n : Z) :
  pf <> VW_PIXEL_RGB -> pf <> VW_PIXEL_RGBA -> 11 <= n ->
  ~ Sorted.StronglySorted strcmp_lt (written_labels pf n).
Proof.
  intros Hrgb Hrgba Hn Hsorted.
  assert (Hlookup : forall i : nat, (i < Z.to_nat n)%nat ->
            written_labels pf n !! i = Some ("Channel" +:+ show_int (Z.of_nat i))).
  { intros i Hi. unfold written_labels, seqZ.
    rewrite !list_lookup_fmap, lookup_seq_lt by done. simpl. rewrite Z.add_0_r.
    unfold label_text, openexr_channel_string_of_pixel_type. by destruct pf. }
  pose proof (StronglySorted_lookup_lt _ 2 10 _ _ Hsorted
                (Hlookup 2%nat ltac:(lia)) (Hlookup 10%nat ltac:(lia)) ltac:(lia)) as Hlt.
  vm_compute in Hlt. discriminate.
Qed.

(** The names [read] uses are those of the header, each once. *)
Lemma read_channel_names_permutation (n : Z) (header : Header) :
  n = Z.of_nat (length (channels header)) ->
  read_channel_names n header ≡ₚ channels header.
Proof.
  intros Hn. unfold read_channel_names, reorder_channel_names.
  rewrite copy_channel_names_all by done.
  destruct (n =? 3) eqn:E3; [apply Z.eqb_eq in E3 | destruct (n =? 4) eqn:E4; [apply Z.eqb_eq in E4 |]].
  - destruct (found "R" _ && found "G" _ && found "B" _) eqn:Hall; [| done].
    rewrite !andb_true_iff, !found_spec in Hall. destruct Hall as [[HR HG] HB].
    destruct (channels header) as [| a [| b [| c [| d rest]]]] eqn:Hchs; simpl in Hn; try lia.
    simpl. apply submseteq_length_Permutation; [| done].
    apply NoDup_submseteq; [apply NoDup_rgb |].
    intros x Hx. repeat (apply elem_of_cons in Hx as [-> | Hx]; [done |]).
    by apply elem_of_nil in Hx.
  - destruct (found "R" _ && found "G" _ && found "B" _ && found "A" _) eqn:Hall; [| done].
    rewrite !andb_true_iff, !found_spec in Hall. destruct Hall as [[[HR HG] HB] HA].
    destruct (channels header) as [| a [| b [| c [| d [| e rest]]]]] eqn:Hchs;
      simpl in Hn; try lia.
    simpl. apply submseteq_length_Permutation; [| done].
    apply NoDup_submseteq; [apply NoDup_rgba |].
    intros x Hx. repeat (apply elem_of_cons in Hx as [-> | Hx]; [done |]).
    by apply elem_of_nil in Hx.
  - done.
Qed.

(** *** [open] *)

Lemma wrap32_small (z : Z) : - 2 ^ 31 <= z < 2 ^ 31 -> wrap32 z = z.
Proof. intros Hz. unfold wrap32. rewrite Z.mod_small by lia. lia. Qed.


(** X4.  When the file opens as a scanline file with a tile description and
    its reopening as a tiled file throws, [open] throws [IOErr] and leaves
    [m_input_file_ptr] on the file it has deleted; every later [open] then
    throws the reuse error. *)
Theorem open_failed_reopen (filename what : string) (h : Header) (m : Machine) :
  m_input_file_ptr (self m) = None ->
  Imf_InputFile (imf_log m) filename = inr h ->
  is_Some (tileDescription h) ->
  (forall past, Imf_TiledInputFile past filename = inl what) ->
  let f := {| in_tiled := false; in_filename := filename; in_header := h |} in
  open filename m
  = (Throw (Vw (IOErr (open_catch_message filename what))),
     {| self := set_m_input_file_ptr (Some f) (set_m_filename filename (self m));
        imf_log := {| ev_call := new_TiledInputFile filename; ev_raised := Some what |}
                   :: {| ev_call := delete_InputFile f; ev_raised := None |}
                   :: {| ev_call := new_InputFile filename; ev_raised := None |}
                   :: imf_log m;
        dest_memory := dest_memory m |}) /\
  forall filename',
    (open filename' (open filename m).2).1
    = Throw (Vw (IOErr "Disk image resources do not yet support reuse.")).
Proof.
  intros Hin Hfirst Htiles Hsecond f.
  assert (Hopen : open filename m
    = (Throw (Vw (IOErr (open_catch_message filename what))),
       {| self := set_m_input_file_ptr (Some f) (set_m_filename filename (self m));
          imf_log := {| ev_call := new_TiledInputFile filename; ev_raised := Some what |}
                     :: {| ev_call := delete_InputFile f; ev_raised := None |}
                     :: {| ev_call := new_InputFile filename; ev_raised := None |}
                     :: imf_log m;
          dest_memory := dest_memory m |})).
  { unfold open. run. rewrite Hin. simpl. rewrite Hfirst. simpl.
    unfold hasTileDescription. rewrite bool_decide_eq_true_2 by done. simpl.
    rewrite Hsecond. done. }
  split; [exact Hopen |].
  intros filename'. rewrite Hopen. cbn [snd].
  by erewrite open_in_use.
Qed.


(** *** The ranges [read] asks for *)

Lemma tiles_cover (origin corner block : Z) :
  0 < block -> 0 <= origin < corner -> corner < 2 ^ 31 ->
  Z.rem origin block = 0 ->
  covers_exactly (Z.quot origin block) (Z.quot (wrap32 (corner - 1)) block)
                 block origin corner.
Proof.
  intros Hblock Horigin Hcorner Hrem. unfold covers_exactly.
  rewrite wrap32_small by lia.
  rewrite Z.rem_mod_nonneg in Hrem by lia.
  rewrite !Z.quot_div_nonneg by lia.
  pose proof (Z.div_mod origin block ltac:(lia)) as Ho.
  pose proof (Z.div_mod (corner - 1) block ltac:(lia)) as Hc.
  pose proof (Z.mod_pos_bound (corner - 1) block Hblock) as Hbound.
  split; nia.
Qed.

(** X6.  A [read] that returns on a tiled resource with a positive block
    size, for a proper window, has made two calls into the library,
    [setFrameBuffer] and one [readTiles], and the tiles it asked for cover
    the window exactly on both axes. *)
Theorem read_tiles_cover_window
    (m m' : Machine) (f : InputFile) (dest : ImageFormat) (bbox : BBox2i) :
  m_input_file_ptr (self m) = Some f ->
  m_tiled (self m) = true ->
  0 < (m_block_size (self m)).1 ->
  0 < (m_block_size (self m)).2 ->
  proper_window bbox ->
  read dest bbox m = (Ok tt, m') ->
  exists fb dx1 dx2 dy1 dy2,
    imf_log m' = {| ev_call := readTiles f dx1 dx2 dy1 dy2; ev_raised := None |}
                 :: {| ev_call := in_setFrameBuffer f fb; ev_raised := None |}
                 :: imf_log m /\
    covers_exactly dx1 dx2 (m_block_size (self m)).1 (bbox_min bbox).1 (bbox_max bbox).1 /\
    covers_exactly dy1 dy2 (m_block_size (self m)).2 (bbox_min bbox).2 (bbox_max bbox).2.
Proof.
  intros Hin Htiled Hbw Hbh (Hx & Hx' & Hy & Hy'). unfold read. run.
  rewrite Hin, Htiled.
  destruct (on_tile_boundary bbox (m_block_size (self m))) eqn:Haligned; [| done].
  apply andb_true_iff in Haligned as [Hxa Hya]. apply Z.eqb_eq in Hxa, Hya.
  destruct (Imf_in_setFrameBuffer _ _ _) as [what | []]; [done |].
  destruct (Imf_readTiles _ _ _ _ _ _) as [what | decoded]; [done |].
  destruct (convert _ _) as [e | new]; [done |].
  intros [= <-]. simpl. do 5 eexists. split; [reflexivity |].
  split; by apply tiles_cover.
Qed.

(** X7.  A [read] that returns on a scanline resource, for a proper window,
    has made two calls into the library, [setFrameBuffer] and one
    [readPixels], from the first row of the window to the smaller of its
    last row and [m_format.rows]. *)
Theorem read_scanlines_range
    (m m' : Machine) (f : InputFile) (dest : ImageFormat) (bbox : BBox2i) :
  m_input_file_ptr (self m) = Some f ->
  m_tiled (self m) = false ->
  proper_window bbox ->
  read dest bbox m = (Ok tt, m') ->
  exists fb,
    imf_log m' = {| ev_call := readPixels f (bbox_min bbox).2
                                 (Z.min ((bbox_max bbox).2 - 1) (rows (m_format (self m))));
                    ev_raised := None |}
                 :: {| ev_call := in_setFrameBuffer f fb; ev_raised := None |}
                 :: imf_log m.
Proof.
  intros Hin Htiled (Hx & Hx' & Hy & Hy'). unfold read. run.
  rewrite Hin, Htiled.
  destruct (Imf_in_setFrameBuffer _ _ _) as [what | []]; [done |].
  destruct (Imf_readPixels _ _ _ _) as [what | decoded]; [done |].
  destruct (convert _ _) as [e | new]; [done |].
  intros [= <-]. simpl. eexists.
  replace (wrap32 ((bbox_min bbox).2 + wrap32 (bbox_height bbox - 1)))
    with ((bbox_max bbox).2 - 1); [reflexivity |].
  unfold bbox_height. rewrite (wrap32_small (_ - (bbox_min bbox).2)) by lia.
  rewrite (wrap32_small (_ - 1)) by lia. rewrite wrap32_small by lia. lia.
Qed.


(** *** [create] and what follows it *)

(** X9.  [create] that returns leaves: the file name and the requested
    columns, rows and pixel format, with channel type [VW_CHANNEL_FLOAT32];
    a tiled layout with blocks of 2048 by 2048; a label for each plane; the
    input side as it was; and the resource on a tiled output file of that
    name whose header has the data window of the image, tiles of 2048 by
    2048 at one level, and the line order of the default argument. *)
Theorem create_postcondition (filename : string) (format : ImageFormat) (m m' : Machine) :
  create filename format m = (Ok tt, m') ->
  m_filename (self m') = filename /\
  cols (m_format (self m')) = cols format /\
  rows (m_format (self m')) = rows format /\
  pixel_format (m_format (self m')) = pixel_format format /\
  channel_type (m_format (self m')) = VW_CHANNEL_FLOAT32 /\
  m_tiled (self m') = true /\
  native_block_size (self m') = (2048, 2048) /\
  length (m_labels (self m')) = Z.to_nat (planes (m_format (self m'))) /\
  m_input_file_ptr (self m') = m_input_file_ptr (self m) /\
  exists f,
    m_output_file_ptr (self m') = Some f /\
    out_tiled f = true /\
    out_filename f = filename /\
    dataWindow (out_header f)
    = {| bbox_min := (0, 0);
         bbox_max := (wrap32 (cols format - 1), wrap32 (rows format - 1)) |} /\
    tileDescription (out_header f) = Some {| xSize := 2048; ySize := 2048; mode := ONE_LEVEL |} /\
    lineOrder (out_header f)
    = (if default_random_tile_order then RANDOM_Y else INCREASING_Y).
Proof.
  intros Hrun. apply create_ok in Hrun as (n & _ & _ & _ & _ & ->). simpl.
  repeat split; try done.
  - unfold written_labels. by rewrite length_fmap, length_seqZ.
  - eexists. repeat split; done.
Qed.

(** X10.  After a [create] that returns, the channels of the header of the
    output file are the labels of the planes, each once, in the strict
    order of [strcmp]; so the header has one channel for each plane. *)
Theorem create_header_channels (filename : string) (format : ImageFormat) (m m' : Machine) :
  create filename format m = (Ok tt, m') ->
  exists f,
    m_output_file_ptr (self m') = Some f /\
    channels (out_header f) ≡ₚ m_labels (self m') /\
    NoDup (m_labels (self m')) /\
    Sorted.StronglySorted strcmp_lt (channels (out_header f)) /\
    Z.of_nat (length (channels (out_header f))) = Z.max 0 (planes (m_format (self m'))).
Proof.
  intros Hrun. apply create_ok in Hrun as (n & _ & _ & Hlabels & _ & ->). simpl.
  eexists. split; [reflexivity |]. simpl.
  destruct (written_channels_spec (pixel_format format)
              (planes (created_format format n)) Hlabels) as [Hperm Hsorted].
  repeat split; try done.
  - by apply written_labels_distinct.
  - rewrite Hperm. unfold written_labels. rewrite length_fmap, length_seqZ.
    unfold created_format. simpl. lia.
Qed.

(** X11.  After a [create] that returns with at most ten planes (three for
    RGB pixels, four for RGBA), the names [read] uses on the header that
    was written are the labels, in the order of the planes: plane by
    plane, a file comes back as it was written. *)
Theorem create_then_read_names (filename : string) (format : ImageFormat) (m m' : Machine)
    (f : OutputFile) :
  create filename format m = (Ok tt, m') ->
  m_output_file_ptr (self m') = Some f ->
  planes (m_format (self m')) <= 10 ->
  (pixel_format format = VW_PIXEL_RGB -> planes (m_format (self m')) = 3) ->
  (pixel_format format = VW_PIXEL_RGBA -> planes (m_format (self m')) = 4) ->
  read_channel_names (planes (m_format (self m'))) (out_header f) = m_labels (self m').
Proof.
  intros Hrun. apply create_ok in Hrun as (n & _ & _ & _ & _ & ->). simpl.
  intros [= <-] Hn Hrgb Hrgba. by apply read_written_names.
Qed.

(** X12.  After a [create] that returns with eleven planes or more, the
    names [read] uses on the header that was written are the labels in
    another order: "Channel10" sorts before "Channel2". *)
Theorem create_then_read_names_permuted
    (filename : string) (format : ImageFormat) (m m' : Machine) (f : OutputFile) :
  create filename format m = (Ok tt, m') ->
  m_output_file_ptr (self m') = Some f ->
  11 <= planes (m_format (self m')) ->
  read_channel_names (planes (m_format (self m'))) (out_header f) ≡ₚ m_labels (self m') /\
  read_channel_names (planes (m_format (self m'))) (out_header f) <> m_labels (self m').
Proof.
  intros Hrun. apply create_ok in Hrun as (n & _ & _ & Hlabels & _ & ->). simpl.
  intros [= <-] Hn. simpl.
  destruct (written_channels_spec (pixel_format format)
              (planes (created_format format n)) Hlabels) as [Hperm Hsorted].
  assert (Hkept : read_channel_names (planes (created_format format n))
                    (tiled_header (created_format format n) 2048 2048
                                  default_random_tile_order)
                  = written_channels (pixel_format format) (planes (created_format format n))).
  { apply read_channel_names_kept; simpl in *.
    - rewrite Hperm. unfold written_labels. rewrite length_fmap, length_seqZ. lia.
    - intros H3. lia.
    - intros H4. lia. }
  simpl in *. rewrite Hkept. split; [done |].
  intros Hsame. rewrite Hsame in Hsorted.
  apply (written_labels_unsorted (pixel_format format)
           (planes (created_format format n))); try done.
  - intros Hrgb. apply Hlabels. left. split; [done | simpl; lia].
  - intros Hrgba. apply Hlabels. right. split; [done | simpl; lia].
Qed.

(** X13.  On a resource bound for reading, aligned if tiled, with a library
    that answers the reads, [read] fills the destination from the channels
    of the header, each exactly once, whatever their names. *)
Theorem read_fills_from_each_channel_once
    (m : Machine) (f : InputFile) (dest : ImageFormat) (bbox : BBox2i)
    (decoded : string -> Plane) :
  bound_for_read (self m) f ->
  NoDup (channels (in_header f)) ->
  reads_as f decoded ->
  (m_tiled (self m) = true -> on_tile_boundary bbox (m_block_size (self m)) = true) ->
  exists names,
    names ≡ₚ channels (in_header f) /\
    filled_from (decoded <$> names) dest bbox m (read dest bbox m).
Proof.
  intros [Hin Hn] Hdistinct Hreads Haligned.
  pose proof (read_channel_names_permutation _ _ Hn) as Hperm.
  exists (read_channel_names (planes (m_format (self m))) (in_header f)).
  split; [done |].
  apply read_fills; try done.
  - by rewrite Hperm.
  - by rewrite Hperm.
Qed.

(** X14.  [set_scanline_write] after a [create] that returned deletes the
    tiled output file of [create] through the class [OutputFile]: it has
    set [m_tiled] to false before it closes the file. *)
Theorem create_then_set_scanline_write
    (filename : string) (format : ImageFormat) (scanlines_per_block : Z) (m m' : Machine) :
  create filename format m = (Ok tt, m') ->
  exists f later,
    m_output_file_ptr (self m') = Some f /\
    out_tiled f = true /\
    imf_log (set_scanline_write scanlines_per_block m').2
    = (later ++ {| ev_call := delete_OutputFile f; ev_raised := None |} :: imf_log m')%list.
Proof.
  intros Hrun. apply create_ok in Hrun as (n & _ & _ & Hlabels & _ & ->).
  eexists. simpl.
  rewrite set_scanline_write_run;
    [| exact Hlabels | simpl; unfold written_labels; by rewrite length_fmap, length_seqZ].
  unfold closed_log. simpl.
  destruct (Imf_OutputFile _ _ _) as [what | []]; simpl;
    (eexists [_]; split; [reflexivity |]; split; reflexivity).
Qed.

(** *** The destructor *)

(** X15.  After an [open] that returned on a resource with no output file,
    and after a [create] that returned on a resource with no input file,
    the destructor makes one call, the [delete] of the bound file through
    the class it was constructed with. *)
Theorem destructor_deletes_through_class
    (filename : string) (format : ImageFormat) (m m' : Machine) :
  (open filename m = (Ok tt, m') ->
   m_output_file_ptr (self m) = None ->
   exists f,
     m_input_file_ptr (self m') = Some f /\
     destructor m'
     = (Ok tt, log_call (if in_tiled f then delete_TiledInputFile f else delete_InputFile f)
                        None m')) /\
  (create filename format m = (Ok tt, m') ->
   m_input_file_ptr (self m) = None ->
   exists f,
     m_output_file_ptr (self m') = Some f /\
     destructor m'
     = (Ok tt, log_call (if out_tiled f then delete_TiledOutputFile f else delete_OutputFile f)
                        None m')).
Proof.
  split.
  - unfold open, destructor. run.
    destruct (m_input_file_ptr (self m)) as [f0 |] eqn:Hin; simpl; [done |].
    destruct (Imf_InputFile _ _) as [what | h]; simpl; [done |].
    unfold hasTileDescription.
    destruct (tileDescription h) as [desc |] eqn:Hdesc; simpl.
    + destruct (Imf_TiledInputFile _ _) as [what | h']; simpl; [done |].
      destruct (tileDescription h'); simpl; [| done].
      intros [= <-] Hout. simpl. rewrite Hout.
      eexists. split; reflexivity.
    + destruct (m_tiled (self m)) eqn:Htiled; simpl.
      * by rewrite Hdesc.
      * intros [= <-] Hout. simpl. rewrite Htiled, Hout.
        eexists. split; reflexivity.
  - intros Hrun Hin. apply create_ok in Hrun as (n & _ & _ & _ & _ & ->).
    unfold destructor. run. rewrite Hin.
    eexists. split; reflexivity.
Qed.

(** X16.  [create] has no guard against reuse: on a resource bound for
    reading it returns as on any other, the resource is then bound both
    ways, and its destructor deletes the input file through
    [TiledInputFile], whatever its class. *)
Theorem create_on_read_bound
    (filename : string) (format : ImageFormat) (m m' : Machine) (f : InputFile) :
  m_input_file_ptr (self m) = Some f ->
  create filename format m = (Ok tt, m') ->
  m_input_file_ptr (self m') = Some f /\
  exists f',
    m_output_file_ptr (self m') = Some f' /\
    imf_log (destructor m').2
    = {| ev_call := delete_TiledOutputFile f'; ev_raised := None |}
      :: {| ev_call := delete_TiledInputFile f; ev_raised := None |}
      :: imf_log m'.
Proof.
  intros Hin Hrun. apply create_ok in Hrun as (n & _ & _ & _ & _ & ->).
  simpl. split; [done |]. eexists. split; [reflexivity |].
  unfold destructor. run. by rewrite Hin.
Qed.

(** X17.  After an [open] that returned on a resource with no output file,
    [write] throws [LogicErr]; after a [create] that returned on a resource
    with no input file, [read] throws [LogicErr]. *)
Theorem one_mode_excludes_the_other
    (filename : string) (format dest : ImageFormat) (src : ImageBuffer) (bbox : BBox2i)
    (m m' : Machine) :
  (open filename m = (Ok tt, m') ->
   m_output_file_ptr (self m) = None ->
   write src bbox m' = (Throw (Vw (LogicErr write_unbound_message)), m')) /\
  (create filename format m = (Ok tt, m') ->
   m_input_file_ptr (self m) = None ->
   read dest bbox m' = (Throw (Vw (LogicErr read_unbound_message)), m')).
Proof.
  split.
  - intros Hrun Hout.
    assert (Hkept : m_output_file_ptr (self m') = None).
    { revert Hrun. unfold open. run.
      destruct (m_input_file_ptr (self m)) as [f0 |]; simpl; [done |].
      destruct (Imf_InputFile _ _) as [what | h]; simpl; [done |].
      destruct (hasTileDescription h); simpl.
      - destruct (Imf_TiledInputFile _ _) as [what | h']; simpl; [done |].
        destruct (tileDescription h'); simpl; [| done]. by intros [= <-].
      - destruct (m_tiled (self m)); simpl.
        + destruct (tileDescription h); simpl; [| done]. by intros [= <-].
        + by intros [= <-]. }
    unfold write. run. by rewrite Hkept.
  - intros Hrun Hin. apply create_ok in Hrun as (n & _ & _ & _ & _ & ->).
    unfold read. run. by rewrite Hin.
Qed.

Lemma set_scanline_write_translates (scanlines_per_block : Z) :
  translates_library_exceptions (set_scanline_write scanlines_per_block).
Proof.
  intros m. unfold set_scanline_write. run.
  destruct (m_output_file_ptr (self m)) as [f |]; simpl;
    (match goal with
     | |- context [label_channels ?l ?h ?m1] =>
         destruct (label_channels_spec l h m1) as [labels [[header' ->] | [msg ->]]]
     end; unfold with_labels; simpl;
     [ destruct (Imf_OutputFile _ _ _) as [what | []]; translated
     | translated ]).
Qed.

(** X19.  [set_tiled_write] and [set_scanline_write] hand every exception
    that the library raises during the call on as an [IOErr] whose message
    ends with the text of that exception, and let none through. *)
Theorem layout_functions_translate
    (tile_width tile_height scanlines_per_block : Z) (random_tile_order : bool) :
  translates_library_exceptions (set_tiled_write tile_width tile_height random_tile_order) /\
  translates_library_exceptions (set_scanline_write scanlines_per_block).
Proof.
  split; [apply set_tiled_write_translates | apply set_scanline_write_translates].
Qed.


(** X21.  A [write] that returns after a [create] that returned has made
    two calls into the library, the first [setFrameBuffer] with the image
    that [convert] has staged and a frame buffer that has the slice of each
    plane under the label of that plane. *)
Theorem create_then_write_frame_buffer
    (filename : string) (format : ImageFormat) (src : ImageBuffer) (bbox : BBox2i)
    (m m1 m2 : Machine) (f : OutputFile) :
  create filename format m = (Ok tt, m1) ->
  m_output_file_ptr (self m1) = Some f ->
  write src bbox m1 = (Ok tt, m2) ->
  exists fb staged last,
    imf_log m2 = {| ev_call := last; ev_raised := None |}
                 :: {| ev_call := out_setFrameBuffer f fb staged; ev_raised := None |}
                 :: imf_log m1 /\
    convert (ImageView_buffer (bbox_width bbox) (bbox_height bbox) (planes (m_format (self m1)))
               (ImageView_float (bbox_width bbox) (bbox_height bbox)
                  (planes (m_format (self m1))))) src
    = inr staged /\
    forall nn label,
      0 <= nn < planes (m_format (self m1)) ->
      openexr_channel_string_of_pixel_type (pixel_format format) nn = inr label ->
      fb !! label = Some nn.
Proof.
  intros Hrun. apply create_ok in Hrun as (n & _ & _ & Hlabels & _ & ->). simpl.
  intros [= <-]. unfold write. run.
  destruct (convert _ src) as [e | staged] eqn:Hconvert; [done |].
  destruct (on_tile_boundary bbox (2048, 2048)); [| done].
  destruct (Imf_out_setFrameBuffer _ _ _ _) as [what | []]; [done |].
  destruct (Imf_writeTiles _ _ _ _ _ _) as [what | []]; [done |].
  intros [= <-]. simpl. do 3 eexists. split; [reflexivity |]. split; [reflexivity |].
  intros nn label Hnn Hlabel.
  assert (Hlen : length (written_labels (pixel_format format)
                           (planes (created_format format n)))
                 = Z.to_nat (planes (created_format format n)))
    by (unfold written_labels; by rewrite length_fmap, length_seqZ).
  assert (Hat : written_labels (pixel_format format) (planes (created_format format n))
                !!! Z.to_nat nn = label).
  { apply list_lookup_total_correct. unfold written_labels, seqZ.
    rewrite !list_lookup_fmap, lookup_seq_lt by (simpl in *; lia). simpl.
    rewrite Z.add_0_r, Z2Nat.id by lia. unfold label_text. by rewrite Hlabel. }
  rewrite <- Hat.
  replace (Some nn) with (Some (Z.of_nat (Z.to_nat nn))) by (by rewrite Z2Nat.id by lia).
  apply build_frameBuffer_lookup; [by apply written_labels_distinct | done | simpl in *; lia].
Qed.

End Resource.

(** ** The georeference *)

Section GeoReferenceFacts.

Import Cartography.
Local Open Scope Q_scope.










End GeoReferenceFacts.

(** * The functions on the small installation *)

Section Runs.

#[local] Existing Instance three_kinds.
#[local] Existing Instance three_files.

(** ** Runs of the code *)

Example open_rgb :
  open "rgb.exr" fresh_machine
  = (Ok tt,
     {| self := {| m_filename := "rgb.exr";
                   m_format := float_format 100 100 3 VW_PIXEL_SCALAR;
                   m_block_size := (100, 10);
                   m_labels := [];
                   m_input_file_ptr := Some (file_of "rgb.exr" header_rgb false);
                   m_output_file_ptr := None;
                   m_tiled := false |};
        imf_log := [ {| ev_call := new_InputFile "rgb.exr"; ev_raised := None |} ];
        dest_memory := [] |}).
Proof. vm_compute. reflexivity. Qed.

Example open_missing :
  (open "missing.exr" fresh_machine).1
  = Throw (Vw (IOErr (open_catch_message "missing.exr" "Cannot open image file."))).
Proof. vm_compute. reflexivity. Qed.

Example read_rgb :
  dest_memory (read (float_format 100 10 3 VW_PIXEL_SCALAR) (box 0 0 100 10) rgb_machine).2
  = [[1]; [2]; [3]].
Proof. vm_compute. reflexivity. Qed.

Example read_tiles_at_256_0 :
  (read (float_format 256 256 1 VW_PIXEL_SCALAR) (box 256 0 512 256) tiles_machine).1 = Ok tt.
Proof. vm_compute. reflexivity. Qed.

Example read_tiles_at_100_0 :
  (read (float_format 256 256 1 VW_PIXEL_SCALAR) (box 100 0 356 256) tiles_machine).1
  = Throw (Vw (ArgumentErr read_assert_message)).
Proof. vm_compute. reflexivity. Qed.

Example create_rgb_labels :
  m_labels (self (create "out.exr" (float_format 100 100 1 VW_PIXEL_RGB) fresh_machine).2)
  = ["R"; "G"; "B"].
Proof. vm_compute. reflexivity. Qed.

Example create_rgb_three_planes :
  (create "out.exr" (float_format 100 100 3 VW_PIXEL_RGB) fresh_machine).1
  = Throw (Vw (NoImplErr (create_assert_message "out.exr"))).
Proof. vm_compute. reflexivity. Qed.

Example set_scanline_write_64 :
  native_block_size (self (set_scanline_write 64 created_machine).2) = (100, 10).
Proof. vm_compute. reflexivity. Qed.

(** ** C1 *)

(** C1 as stated fails: the second [open] on a resource that a first [open]
    has bound does not throw [LogicErr]. *)
Lemma second_open_not_LogicErr :
  (open "rgb.exr" fresh_machine).1 = Ok tt /\
  ~ exists msg, (open "tiles.exr" rgb_machine).1 = Throw (Vw (LogicErr msg)).
Proof.
  split; [vm_compute; reflexivity |]. intros [msg Hmsg]. vm_compute in Hmsg. discriminate.
Qed.

Lemma second_open_IOErr_witness :
  m_input_file_ptr (self rgb_machine) = Some (file_of "rgb.exr" header_rgb false) /\
  (open "tiles.exr" rgb_machine).1
    = Throw (Vw (IOErr "Disk image resources do not yet support reuse.")) /\
  m_input_file_ptr (self (open "tiles.exr" rgb_machine).2)
    = Some (file_of "rgb.exr" header_rgb false).
Proof.
  assert (Hin : m_input_file_ptr (self rgb_machine)
                = Some (file_of "rgb.exr" header_rgb false)) by (vm_compute; reflexivity).
  split; [exact Hin |].
  destruct (second_open_IOErr rgb_machine (file_of "rgb.exr" header_rgb false) "tiles.exr" Hin)
    as (Hthrows & Hbound & _).
  split; [exact Hthrows | exact Hbound].
Defined.

(** ** C2 *)

Lemma set_scanline_write_block_size_witness :
  set_scanline_write 64 created_machine
    = (Ok tt, (set_scanline_write 64 created_machine).2) /\
  native_block_size (self (set_scanline_write 64 created_machine).2) = (100, 10) /\
  (native_block_size (self (set_scanline_write 64 created_machine).2)).2 <> 64.
Proof.
  assert (Hrun : set_scanline_write 64 created_machine
                 = (Ok tt, (set_scanline_write 64 created_machine).2))
    by (vm_compute; reflexivity).
  split; [exact Hrun |].
  destruct (set_scanline_write_block_size created_machine _ 64 Hrun) as [Hsize Hiff].
  split; [exact Hsize |].
  intros H64. apply Hiff in H64. vm_compute in H64. discriminate.
Defined.

(** ** C3 *)


(** ** C4 *)

Lemma three_files_reads_as (f : InputFile) : reads_as f samples_of.
Proof. repeat split. Qed.

Lemma read_canonical_order_witness :
  m_input_file_ptr (self rgb_machine) = Some (file_of "rgb.exr" header_rgb false) /\
  reads_as (file_of "rgb.exr" header_rgb false) samples_of /\
  (m_tiled (self rgb_machine) = true ->
   on_tile_boundary (box 0 0 100 10) (m_block_size (self rgb_machine)) = true) /\
  planes (m_format (self rgb_machine)) = 3 /\
  channels (in_header (file_of "rgb.exr" header_rgb false)) ≡ₚ ["B"; "G"; "R"] /\
  filled_from [samples_of "R"; samples_of "G"; samples_of "B"]
              (float_format 100 10 3 VW_PIXEL_SCALAR) (box 0 0 100 10) rgb_machine
              (read (float_format 100 10 3 VW_PIXEL_SCALAR) (box 0 0 100 10) rgb_machine).
Proof.
  assert (Hin : m_input_file_ptr (self rgb_machine)
                = Some (file_of "rgb.exr" header_rgb false)) by (vm_compute; reflexivity).
  assert (Haligned : m_tiled (self rgb_machine) = true ->
            on_tile_boundary (box 0 0 100 10) (m_block_size (self rgb_machine)) = true)
    by (vm_compute; discriminate).
  assert (Hplanes : planes (m_format (self rgb_machine)) = 3) by (vm_compute; reflexivity).
  assert (Hperm : channels (in_header (file_of "rgb.exr" header_rgb false)) ≡ₚ ["B"; "G"; "R"])
    by reflexivity.
  split; [exact Hin |]. split; [apply three_files_reads_as |]. split; [exact Haligned |].
  split; [exact Hplanes |]. split; [exact Hperm |].
  destruct (read_canonical_order rgb_machine (file_of "rgb.exr" header_rgb false)
              (float_format 100 10 3 VW_PIXEL_SCALAR) (box 0 0 100 10) samples_of
              Hin (three_files_reads_as _) Haligned) as (Hrgb & _ & _).
  exact (Hrgb Hplanes Hperm).
Defined.

(** ** C5 *)

Lemma create_plane_count_witness :
  (planes (float_format 100 100 1 VW_PIXEL_RGB) = 1 \/
   pixel_format (float_format 100 100 1 VW_PIXEL_RGB) = VW_PIXEL_SCALAR) /\
  num_channels VW_PIXEL_RGB = inr 3 /\
  planes (m_format (self (create "out.exr" (float_format 100 100 1 VW_PIXEL_RGB)
                                 fresh_machine).2)) = 3.
Proof.
  split; [left; reflexivity |]. split; [reflexivity |].
  exact (create_plane_count fresh_machine "out.exr" (float_format 100 100 1 VW_PIXEL_RGB) 3
           (or_introl eq_refl) eq_refl).
Defined.

(** ** C6 *)



(** ** C7 *)

Lemma unbound_read_write_LogicErr_witness :
  unbound (self fresh_machine) /\
  read (float_format 100 10 3 VW_PIXEL_SCALAR) (box 0 0 100 10) fresh_machine
    = (Throw (Vw (LogicErr read_unbound_message)), fresh_machine) /\
  write {| buf_format := float_format 100 10 3 VW_PIXEL_SCALAR; buf_data := [[1]; [2]; [3]] |}
        (box 0 0 100 10) fresh_machine
    = (Throw (Vw (LogicErr write_unbound_message)), fresh_machine).
Proof.
  assert (Hunbound : unbound (self fresh_machine)) by (split; reflexivity).
  split; [exact Hunbound |].
  exact (unbound_read_write_LogicErr fresh_machine (float_format 100 10 3 VW_PIXEL_SCALAR)
           {| buf_format := float_format 100 10 3 VW_PIXEL_SCALAR;
              buf_data := [[1]; [2]; [3]] |}
           (box 0 0 100 10) Hunbound).
Defined.

(** ** C10 *)

Example read_xyz :
  dest_memory (read (float_format 100 10 3 VW_PIXEL_SCALAR) (box 0 0 100 10) xyz_machine).2
  = [[7]; [8]; [9]].
Proof. vm_compute. reflexivity. Qed.

Lemma read_keeps_order_without_rgb_witness :
  bound_for_read (self xyz_machine) (file_of "xyz.exr" header_xyz false) /\
  NoDup (channels (in_header (file_of "xyz.exr" header_xyz false))) /\
  reads_as (file_of "xyz.exr" header_xyz false) samples_of /\
  (m_tiled (self xyz_machine) = true ->
   on_tile_boundary (box 0 0 100 10) (m_block_size (self xyz_machine)) = true) /\
  planes (m_format (self xyz_machine)) = 3 /\
  ~ ("R" ∈ channels (in_header (file_of "xyz.exr" header_xyz false)) /\
     "G" ∈ channels (in_header (file_of "xyz.exr" header_xyz false)) /\
     "B" ∈ channels (in_header (file_of "xyz.exr" header_xyz false))) /\
  filled_from (samples_of <$> channels (in_header (file_of "xyz.exr" header_xyz false)))
              (float_format 100 10 3 VW_PIXEL_SCALAR) (box 0 0 100 10) xyz_machine
              (read (float_format 100 10 3 VW_PIXEL_SCALAR) (box 0 0 100 10) xyz_machine).
Proof.
  assert (Hbound : bound_for_read (self xyz_machine) (file_of "xyz.exr" header_xyz false))
    by (split; vm_compute; reflexivity).
  assert (Hdistinct : NoDup (channels (in_header (file_of "xyz.exr" header_xyz false))))
    by (by apply (bool_decide_unpack (NoDup ["X"; "Y"; "Z"]))).
  assert (Haligned : m_tiled (self xyz_machine) = true ->
            on_tile_boundary (box 0 0 100 10) (m_block_size (self xyz_machine)) = true)
    by (vm_compute; discriminate).
  assert (Hplanes : planes (m_format (self xyz_machine)) = 3) by (vm_compute; reflexivity).
  assert (Hno : ~ ("R" ∈ channels (in_header (file_of "xyz.exr" header_xyz false)) /\
                   "G" ∈ channels (in_header (file_of "xyz.exr" header_xyz false)) /\
                   "B" ∈ channels (in_header (file_of "xyz.exr" header_xyz false)))).
  { intros [HR _]. simpl in HR.
    repeat (apply elem_of_cons in HR as [HR | HR]; [discriminate |]).
    by apply elem_of_nil in HR. }
  split; [exact Hbound |]. split; [exact Hdistinct |].
  split; [apply three_files_reads_as |]. split; [exact Haligned |].
  split; [exact Hplanes |]. split; [exact Hno |].
  exact (read_keeps_order_without_rgb xyz_machine (file_of "xyz.exr" header_xyz false)
           (float_format 100 10 3 VW_PIXEL_SCALAR) (box 0 0 100 10) samples_of
           Hbound Hdistinct (three_files_reads_as _) Haligned
           (or_introl (conj Hplanes Hno))).
Defined.

End Runs.

(** ** C9 *)

Section GeoReferenceRuns.

Import Cartography.
Local Open Scope Q_scope.

Example pixel_to_point_3_4 :
  Veq (pixel_to_point (set_pixel_interpretation PixelAsArea ten_georeference) (3, 4))
      (135, 155).
Proof. split; vm_compute; reflexivity. Qed.

Example pixel_to_point_as_point_3_4 :
  Veq (pixel_to_point (set_pixel_interpretation PixelAsPoint ten_georeference) (3, 4))
      (130, 160).
Proof. split; vm_compute; reflexivity. Qed.

Example set_transform_singular :
  set_transform {| e00 := 1; e01 := 2; e02 := 0;
                   e10 := 2; e11 := 4; e12 := 0;
                   e20 := 0; e21 := 0; e22 := 1 |}
                (GeoReference_new PixelAsPoint)
  = inl (ArgumentErr singular_message).
Proof. vm_compute. reflexivity. Qed.


End GeoReferenceRuns.

Section MoreRuns.

#[local] Existing Instance three_kinds.
#[local] Existing Instance three_files.

(** ** Runs of the added properties *)

Lemma channel_labels_distinct_witness :
  openexr_channel_string_of_pixel_type VW_PIXEL_SCALAR 2 = inr "Channel2" /\
  openexr_channel_string_of_pixel_type VW_PIXEL_SCALAR 10 = inr "Channel10" /\
  "Channel2" <> "" /\ ("Channel2" = "Channel10" -> 2 = 10).
Proof.
  assert (H2 : openexr_channel_string_of_pixel_type VW_PIXEL_SCALAR 2 = inr "Channel2")
    by (vm_compute; reflexivity).
  assert (H10 : openexr_channel_string_of_pixel_type VW_PIXEL_SCALAR 10 = inr "Channel10")
    by (vm_compute; reflexivity).
  split; [exact H2 |]. split; [exact H10 |].
  exact (channel_labels_distinct VW_PIXEL_SCALAR 2 10 "Channel2" "Channel10" H2 H10).
Defined.



Lemma open_failed_reopen_witness :
  (@open three_kinds no_tiled_reopen "tiles.exr" fresh_machine).1
  = Throw (Vw (IOErr (open_catch_message "tiles.exr" "Cannot open image file."))) /\
  m_input_file_ptr (self (@open three_kinds no_tiled_reopen "tiles.exr" fresh_machine).2)
  = Some (file_of "tiles.exr" header_tiles false) /\
  (@open three_kinds no_tiled_reopen "rgb.exr"
     (@open three_kinds no_tiled_reopen "tiles.exr" fresh_machine).2).1
  = Throw (Vw (IOErr "Disk image resources do not yet support reuse.")).
Proof.
  assert (Hin : m_input_file_ptr (self fresh_machine) = None) by reflexivity.
  assert (Hfile : @Imf_InputFile no_tiled_reopen (imf_log fresh_machine) "tiles.exr"
                  = inr header_tiles) by (vm_compute; reflexivity).
  assert (Hdesc : is_Some (tileDescription header_tiles)) by (eexists; reflexivity).
  assert (Hnever : forall past,
            @Imf_TiledInputFile no_tiled_reopen past "tiles.exr" = inl "Cannot open image file.")
    by (intros past; reflexivity).
  destruct (@open_failed_reopen three_kinds no_tiled_reopen "tiles.exr"
              "Cannot open image file." header_tiles fresh_machine Hin Hfile Hdesc Hnever)
    as [Hrun Hlater].
  split; [rewrite Hrun; reflexivity |]. split; [rewrite Hrun; reflexivity | apply Hlater].
Defined.


Lemma read_tiles_cover_window_witness :
  proper_window (box 256 0 700 256) /\
  exists fb dx1 dx2 dy1 dy2,
    imf_log (read (float_format 444 256 1 VW_PIXEL_SCALAR) (box 256 0 700 256)
               tiles_machine).2
    = {| ev_call := readTiles (file_of "tiles.exr" header_tiles true) dx1 dx2 dy1 dy2;
         ev_raised := None |}
      :: {| ev_call := in_setFrameBuffer (file_of "tiles.exr" header_tiles true) fb;
            ev_raised := None |}
      :: imf_log tiles_machine /\
    covers_exactly dx1 dx2 (m_block_size (self tiles_machine)).1 256 700 /\
    covers_exactly dy1 dy2 (m_block_size (self tiles_machine)).2 0 256.
Proof.
  assert (Hwindow : proper_window (box 256 0 700 256)) by (unfold proper_window; simpl; lia).
  split; [exact Hwindow |].
  apply (read_tiles_cover_window tiles_machine _ (file_of "tiles.exr" header_tiles true)
           (float_format 444 256 1 VW_PIXEL_SCALAR) (box 256 0 700 256)).
  - vm_compute; reflexivity.
  - vm_compute; reflexivity.
  - vm_compute; reflexivity.
  - vm_compute; reflexivity.
  - exact Hwindow.
  - vm_compute; reflexivity.
Defined.

Lemma read_scanlines_range_witness :
  proper_window (box 0 95 100 250) /\
  exists fb,
    imf_log (read (float_format 100 155 3 VW_PIXEL_SCALAR) (box 0 95 100 250) rgb_machine).2
    = {| ev_call := readPixels (file_of "rgb.exr" header_rgb false) 95
                      (Z.min (250 - 1) (rows (m_format (self rgb_machine))));
         ev_raised := None |}
      :: {| ev_call := in_setFrameBuffer (file_of "rgb.exr" header_rgb false) fb;
            ev_raised := None |}
      :: imf_log rgb_machine.
Proof.
  assert (Hwindow : proper_window (box 0 95 100 250)) by (unfold proper_window; simpl; lia).
  split; [exact Hwindow |].
  apply (read_scanlines_range rgb_machine _ (file_of "rgb.exr" header_rgb false)
           (float_format 100 155 3 VW_PIXEL_SCALAR) (box 0 95 100 250)).
  - vm_compute; reflexivity.
  - vm_compute; reflexivity.
  - exact Hwindow.
  - vm_compute; reflexivity.
Defined.


Lemma create_postcondition_witness :
  create "out.exr" (float_format 100 100 1 VW_PIXEL_RGB) fresh_machine
  = (Ok tt, rgb_created_machine) /\
  m_tiled (self rgb_created_machine) = true /\
  native_block_size (self rgb_created_machine) = (2048, 2048) /\
  length (m_labels (self rgb_created_machine))
  = Z.to_nat (planes (m_format (self rgb_created_machine))).
Proof.
  assert (Hrun : create "out.exr" (float_format 100 100 1 VW_PIXEL_RGB) fresh_machine
                 = (Ok tt, rgb_created_machine)) by (vm_compute; reflexivity).
  split; [exact Hrun |].
  destruct (create_postcondition "out.exr" (float_format 100 100 1 VW_PIXEL_RGB)
              fresh_machine rgb_created_machine Hrun)
    as (_ & _ & _ & _ & _ & Htiled & Hblock & Hlabels & _).
  split; [exact Htiled |]. split; [exact Hblock | exact Hlabels].
Defined.

Lemma create_header_channels_witness :
  create "out.exr" (float_format 100 100 1 VW_PIXEL_RGB) fresh_machine
  = (Ok tt, rgb_created_machine) /\
  exists f,
    m_output_file_ptr (self rgb_created_machine) = Some f /\
    channels (out_header f) ≡ₚ m_labels (self rgb_created_machine) /\
    NoDup (m_labels (self rgb_created_machine)) /\
    Sorted.StronglySorted strcmp_lt (channels (out_header f)) /\
    Z.of_nat (length (channels (out_header f)))
    = Z.max 0 (planes (m_format (self rgb_created_machine))).
Proof.
  assert (Hrun : create "out.exr" (float_format 100 100 1 VW_PIXEL_RGB) fresh_machine
                 = (Ok tt, rgb_created_machine)) by (vm_compute; reflexivity).
  split; [exact Hrun |].
  exact (create_header_channels "out.exr" (float_format 100 100 1 VW_PIXEL_RGB)
           fresh_machine rgb_created_machine Hrun).
Defined.

Lemma create_then_read_names_witness :
  m_output_file_ptr (self rgb_created_machine)
  = Some (created_file "out.exr" (float_format 100 100 3 VW_PIXEL_RGB)) /\
  channels (out_header (created_file "out.exr" (float_format 100 100 3 VW_PIXEL_RGB)))
  = ["B"; "G"; "R"] /\
  read_channel_names (planes (m_format (self rgb_created_machine)))
    (out_header (created_file "out.exr" (float_format 100 100 3 VW_PIXEL_RGB)))
  = m_labels (self rgb_created_machine).
Proof.
  assert (Hrun : create "out.exr" (float_format 100 100 1 VW_PIXEL_RGB) fresh_machine
                 = (Ok tt, rgb_created_machine)) by (vm_compute; reflexivity).
  assert (Hout : m_output_file_ptr (self rgb_created_machine)
                 = Some (created_file "out.exr" (float_format 100 100 3 VW_PIXEL_RGB)))
    by (vm_compute; reflexivity).
  split; [exact Hout |]. split; [vm_compute; reflexivity |].
  apply (create_then_read_names "out.exr" (float_format 100 100 1 VW_PIXEL_RGB)
           fresh_machine rgb_created_machine _ Hrun Hout).
  - vm_compute; discriminate.
  - intros _. vm_compute; reflexivity.
  - intros Hrgba. vm_compute in Hrgba. discriminate.
Defined.

Lemma create_then_read_names_permuted_witness :
  m_output_file_ptr (self eleven_machine)
  = Some (created_file "out.exr" (float_format 100 100 11 VW_PIXEL_SCALAR)) /\
  read_channel_names (planes (m_format (self eleven_machine)))
    (out_header (created_file "out.exr" (float_format 100 100 11 VW_PIXEL_SCALAR)))
  ≡ₚ m_labels (self eleven_machine) /\
  read_channel_names (planes (m_format (self eleven_machine)))
    (out_header (created_file "out.exr" (float_format 100 100 11 VW_PIXEL_SCALAR)))
  <> m_labels (self eleven_machine).
Proof.
  assert (Hrun : create "out.exr" (float_format 100 100 11 VW_PIXEL_SCALAR) fresh_machine
                 = (Ok tt, eleven_machine)) by (vm_compute; reflexivity).
  assert (Hout : m_output_file_ptr (self eleven_machine)
                 = Some (created_file "out.exr" (float_format 100 100 11 VW_PIXEL_SCALAR)))
    by (vm_compute; reflexivity).
  split; [exact Hout |].
  apply (create_then_read_names_permuted "out.exr" (float_format 100 100 11 VW_PIXEL_SCALAR)
           fresh_machine eleven_machine _ Hrun Hout).
  vm_compute; discriminate.
Defined.

Lemma read_fills_from_each_channel_once_witness :
  bound_for_read (self xyz_machine) (file_of "xyz.exr" header_xyz false) /\
  exists names,
    names ≡ₚ channels (in_header (file_of "xyz.exr" header_xyz false)) /\
    filled_from (samples_of <$> names) (float_format 100 10 3 VW_PIXEL_SCALAR)
      (box 0 0 100 10) xyz_machine
      (read (float_format 100 10 3 VW_PIXEL_SCALAR) (box 0 0 100 10) xyz_machine).
Proof.
  assert (Hbound : bound_for_read (self xyz_machine) (file_of "xyz.exr" header_xyz false))
    by (split; vm_compute; reflexivity).
  split; [exact Hbound |].
  apply (read_fills_from_each_channel_once xyz_machine (file_of "xyz.exr" header_xyz false)
           (float_format 100 10 3 VW_PIXEL_SCALAR) (box 0 0 100 10) samples_of Hbound).
  - apply (bool_decide_unpack (NoDup (channels (in_header (file_of "xyz.exr" header_xyz false))))).
    vm_compute. exact I.
  - repeat split.
  - vm_compute; discriminate.
Defined.

Lemma create_then_set_scanline_write_witness :
  create "out.exr" (float_format 100 100 1 VW_PIXEL_SCALAR) fresh_machine
  = (Ok tt, created_machine) /\
  exists f later,
    m_output_file_ptr (self created_machine) = Some f /\
    out_tiled f = true /\
    imf_log (set_scanline_write 64 created_machine).2
    = (later ++ {| ev_call := delete_OutputFile f; ev_raised := None |}
             :: imf_log created_machine)%list.
Proof.
  assert (Hrun : create "out.exr" (float_format 100 100 1 VW_PIXEL_SCALAR) fresh_machine
                 = (Ok tt, created_machine)) by (vm_compute; reflexivity).
  split; [exact Hrun |].
  exact (create_then_set_scanline_write "out.exr" (float_format 100 100 1 VW_PIXEL_SCALAR) 64
           fresh_machine created_machine Hrun).
Defined.

Lemma destructor_deletes_through_class_witness :
  (exists f,
     m_input_file_ptr (self tiles_machine) = Some f /\
     destructor tiles_machine
     = (Ok tt, log_call (if in_tiled f then delete_TiledInputFile f else delete_InputFile f)
                        None tiles_machine)) /\
  (exists f,
     m_output_file_ptr (self created_machine) = Some f /\
     destructor created_machine
     = (Ok tt, log_call (if out_tiled f then delete_TiledOutputFile f else delete_OutputFile f)
                        None created_machine)).
Proof.
  split.
  - apply (destructor_deletes_through_class "tiles.exr" no_format fresh_machine tiles_machine).
    + vm_compute; reflexivity.
    + reflexivity.
  - apply (destructor_deletes_through_class "out.exr" (float_format 100 100 1 VW_PIXEL_SCALAR)
             fresh_machine created_machine).
    + vm_compute; reflexivity.
    + reflexivity.
Defined.

Lemma create_on_read_bound_witness :
  m_input_file_ptr (self rgb_machine) = Some (file_of "rgb.exr" header_rgb false) /\
  m_input_file_ptr
    (self (create "out.exr" (float_format 100 100 1 VW_PIXEL_SCALAR) rgb_machine).2)
  = Some (file_of "rgb.exr" header_rgb false) /\
  exists f',
    m_output_file_ptr
      (self (create "out.exr" (float_format 100 100 1 VW_PIXEL_SCALAR) rgb_machine).2)
    = Some f' /\
    imf_log
      (destructor (create "out.exr" (float_format 100 100 1 VW_PIXEL_SCALAR) rgb_machine).2).2
    = {| ev_call := delete_TiledOutputFile f'; ev_raised := None |}
      :: {| ev_call := delete_TiledInputFile (file_of "rgb.exr" header_rgb false);
            ev_raised := None |}
      :: imf_log (create "out.exr" (float_format 100 100 1 VW_PIXEL_SCALAR) rgb_machine).2.
Proof.
  assert (Hin : m_input_file_ptr (self rgb_machine)
                = Some (file_of "rgb.exr" header_rgb false)) by (vm_compute; reflexivity).
  split; [exact Hin |].
  apply (create_on_read_bound "out.exr" (float_format 100 100 1 VW_PIXEL_SCALAR) rgb_machine
           _ (file_of "rgb.exr" header_rgb false) Hin).
  vm_compute; reflexivity.
Defined.

Lemma one_mode_excludes_the_other_witness :
  write ramp (box 0 0 100 10) rgb_machine
  = (Throw (Vw (LogicErr write_unbound_message)), rgb_machine) /\
  read (float_format 100 10 1 VW_PIXEL_SCALAR) (box 0 0 100 10) created_machine
  = (Throw (Vw (LogicErr read_unbound_message)), created_machine).
Proof.
  split.
  - apply (one_mode_excludes_the_other "rgb.exr" no_format no_format ramp (box 0 0 100 10)
             fresh_machine rgb_machine).
    + vm_compute; reflexivity.
    + reflexivity.
  - apply (one_mode_excludes_the_other "out.exr" (float_format 100 100 1 VW_PIXEL_SCALAR)
             (float_format 100 10 1 VW_PIXEL_SCALAR) ramp (box 0 0 100 10)
             fresh_machine created_machine).
    + vm_compute; reflexivity.
    + reflexivity.
Defined.



Lemma create_then_write_frame_buffer_witness :
  write ramp (box 0 0 100 100) rgb_created_machine
  = (Ok tt, (write ramp (box 0 0 100 100) rgb_created_machine).2) /\
  exists fb staged last,
    imf_log (write ramp (box 0 0 100 100) rgb_created_machine).2
    = {| ev_call := last; ev_raised := None |}
      :: {| ev_call := out_setFrameBuffer
                         (created_file "out.exr" (float_format 100 100 3 VW_PIXEL_RGB))
                         fb staged;
            ev_raised := None |}
      :: imf_log rgb_created_machine /\
    convert (ImageView_buffer (bbox_width (box 0 0 100 100)) (bbox_height (box 0 0 100 100))
               (planes (m_format (self rgb_created_machine)))
               (ImageView_float (bbox_width (box 0 0 100 100)) (bbox_height (box 0 0 100 100))
                  (planes (m_format (self rgb_created_machine))))) ramp
    = inr staged /\
    forall nn label,
      0 <= nn < planes (m_format (self rgb_created_machine)) ->
      openexr_channel_string_of_pixel_type
        (pixel_format (float_format 100 100 1 VW_PIXEL_RGB)) nn = inr label ->
      fb !! label = Some nn.
Proof.
  assert (Hwrite : write ramp (box 0 0 100 100) rgb_created_machine
                   = (Ok tt, (write ramp (box 0 0 100 100) rgb_created_machine).2))
    by (vm_compute; reflexivity).
  split; [exact Hwrite |].
  apply (create_then_write_frame_buffer "out.exr" (float_format 100 100 1 VW_PIXEL_RGB)
           ramp (box 0 0 100 100) fresh_machine rgb_created_machine _
           (created_file "out.exr" (float_format 100 100 3 VW_PIXEL_RGB))).
  - vm_compute; reflexivity.
  - vm_compute; reflexivity.
  - exact Hwrite.
Defined.

End MoreRuns.
